(** * MindGuard: the assessment routes, the submission schema and the
      dashboard trend, embedded from the JavaScript and TypeScript sources.

    Sources embedded here:
    - routes/assessment.js: [assessmentValidation], the [/submit] and
      [/history] handlers and [generateFallbackPrediction];
    - models/Submission.js: the casts and the constraints of a persisted
      submission;
    - pages/Dashboard.tsx: [getRiskTrend], over the types of types/index.ts.

    Numbers.  A JavaScript number is a binary64 float.  The questionnaire
    fields are integers and are kept in [Z]; the risk score is built from
    them with the weights 1, 1.5, 2, 3 and 5, so it is kept in [Q].  Lemma
    [riskScore_half_integer] below shows that on validated input the score
    is a multiple of one half between 0 and 195, a value binary64 holds
    exactly, so that no rounding separates the float from the rational.

    Bodies.  The handler works on [req.body] as it arrives.  The engine is
    first given on ten integers ([generateFallbackPrediction]), then on the
    body itself ([fallbackPrediction]), where a field may also be an array
    that passed the validator element by element; the two agree on a body
    of ten single integers ([holdsForm_fallbackPrediction]). *)

From Stdlib Require Import ZArith QArith Qround Lqa Lia String List.
From stdpp Require Import gmap strings list sorting.
Import ListNotations.

Local Open Scope Z_scope.
Local Open Scope string_scope.
Local Open Scope list_scope.

(** ** The questionnaire (types/index.ts, [MentalHealthForm]) *)

Record MentalHealthForm : Type := mkForm {
  sleepHours : Z;
  anxietyLevel : Z;
  stressFrequency : Z;
  financialStress : Z;
  socialSupport : Z;
  workLifeBalance : Z;
  physicalActivity : Z;
  substanceUse : Z;
  moodChanges : Z;
  suicidalThoughts : Z
}.

(** The ten field names, for reading and updating one field at a time. *)
Inductive Field : Type :=
| FSleepHours | FAnxietyLevel | FStressFrequency | FFinancialStress
| FSocialSupport | FWorkLifeBalance | FPhysicalActivity | FSubstanceUse
| FMoodChanges | FSuicidalThoughts.

#[global] Instance Field_eq_dec : EqDecision Field.
Proof. solve_decision. Defined.

Definition getField (f : Field) (d : MentalHealthForm) : Z :=
  match f with
  | FSleepHours => sleepHours d
  | FAnxietyLevel => anxietyLevel d
  | FStressFrequency => stressFrequency d
  | FFinancialStress => financialStress d
  | FSocialSupport => socialSupport d
  | FWorkLifeBalance => workLifeBalance d
  | FPhysicalActivity => physicalActivity d
  | FSubstanceUse => substanceUse d
  | FMoodChanges => moodChanges d
  | FSuicidalThoughts => suicidalThoughts d
  end.

Definition setField (f : Field) (v : Z) (d : MentalHealthForm) : MentalHealthForm :=
  match d with
  | mkForm sl an st fi so wo ph su mo sc =>
    match f with
    | FSleepHours => mkForm v an st fi so wo ph su mo sc
    | FAnxietyLevel => mkForm sl v st fi so wo ph su mo sc
    | FStressFrequency => mkForm sl an v fi so wo ph su mo sc
    | FFinancialStress => mkForm sl an st v so wo ph su mo sc
    | FSocialSupport => mkForm sl an st fi v wo ph su mo sc
    | FWorkLifeBalance => mkForm sl an st fi so v ph su mo sc
    | FPhysicalActivity => mkForm sl an st fi so wo v su mo sc
    | FSubstanceUse => mkForm sl an st fi so wo ph v mo sc
    | FMoodChanges => mkForm sl an st fi so wo ph su v sc
    | FSuicidalThoughts => mkForm sl an st fi so wo ph su mo v
    end
  end.

(** The declared range of a field: the [min] and [max] that both
    [assessmentValidation] and the [formData] part of the schema give it. *)
Definition fieldMin (f : Field) : Z :=
  match f with FSleepHours => 0 | _ => 1 end.

Definition fieldMax (f : Field) : Z :=
  match f with FSleepHours => 12 | _ => 10 end.

Definition validForm (d : MentalHealthForm) : Prop :=
  0 <= sleepHours d <= 12 /\
  1 <= anxietyLevel d <= 10 /\
  1 <= stressFrequency d <= 10 /\
  1 <= financialStress d <= 10 /\
  1 <= socialSupport d <= 10 /\
  1 <= workLifeBalance d <= 10 /\
  1 <= physicalActivity d <= 10 /\
  1 <= substanceUse d <= 10 /\
  1 <= moodChanges d <= 10 /\
  1 <= suicidalThoughts d <= 10.

(** ** The fallback scoring engine (routes/assessment.js) *)

(** The object [generateFallbackPrediction] returns.  [timestamp] is the
    reading of the clock, [new Date()], as milliseconds since the epoch. *)
Record RiskAssessment : Type := mkAssessment {
  prediction : string;
  confidence : Q;
  recommendations : list string;
  timestamp : Z
}.

Local Open Scope Q_scope.

(** The running sum [riskScore] of the source, one [let] per statement, in
    the order of the source. *)
Definition riskScore (formData : MentalHealthForm) : Q :=
  let riskScore := 0 in
  let riskScore :=
    if (sleepHours formData <? 6)%Z then riskScore + 15
    else if (sleepHours formData <? 7)%Z then riskScore + 8
    else if (sleepHours formData >? 9)%Z then riskScore + 5
    else riskScore in
  let riskScore := riskScore + (inject_Z (anxietyLevel formData) - 1) * 2 in
  let riskScore := riskScore + (inject_Z (stressFrequency formData) - 1) * 2 in
  let riskScore := riskScore + (inject_Z (financialStress formData) - 1) * 1.5 in
  let riskScore := riskScore + (10 - inject_Z (socialSupport formData)) * 2 in
  let riskScore := riskScore + (10 - inject_Z (workLifeBalance formData)) * 1.5 in
  let riskScore := riskScore + (10 - inject_Z (physicalActivity formData)) * 1 in
  let riskScore := riskScore + (inject_Z (substanceUse formData) - 1) * 3 in
  let riskScore := riskScore + (inject_Z (moodChanges formData) - 1) * 2 in
  let riskScore := riskScore + (inject_Z (suicidalThoughts formData) - 1) * 5 in
  riskScore.

(** The classification that follows the sum, with the three literal
    recommendation arrays of the source. *)
Definition classify (riskScore : Q) (now : Z) : RiskAssessment :=
  if Qle_bool riskScore 30 then
    {| prediction := "Low Risk";
       confidence := 0.85;
       recommendations :=
         [ "Continue maintaining healthy habits";
           "Regular exercise and good sleep schedule";
           "Stay connected with friends and family";
           "Practice stress management techniques" ];
       timestamp := now |}
  else if Qle_bool riskScore 60 then
    {| prediction := "Medium Risk";
       confidence := 0.78;
       recommendations :=
         [ "Consider speaking with a mental health professional";
           "Focus on improving sleep quality and duration";
           "Increase physical activity and social connections";
           "Practice mindfulness and stress reduction techniques";
           "Limit alcohol and substance use" ];
       timestamp := now |}
  else
    {| prediction := "High Risk";
       confidence := 0.82;
       recommendations :=
         [ "Strongly recommend seeking professional mental health support";
           "Contact a crisis helpline if experiencing suicidal thoughts";
           "Reach out to trusted friends, family, or support groups";
           "Consider medication evaluation with a psychiatrist";
           "Develop a safety plan with a mental health professional" ];
       timestamp := now |}.

Definition generateFallbackPrediction (formData : MentalHealthForm) (now : Z)
  : RiskAssessment :=
  classify (riskScore formData) now.

(** ** The score as the specification words it (section 4.2)

    A sleep bucket, six terms [(value - 1) * weight] and three terms
    [(10 - value) * weight], written independently of the running sum. *)

Definition sleepTerm (h : Z) : Q :=
  if (h <? 6)%Z then 15
  else if (h <? 7)%Z then 8
  else if (h >? 9)%Z then 5
  else 0.

Definition linearTerm (value : Z) (weight : Q) : Q := (inject_Z value - 1) * weight.

Definition invertedTerm (value : Z) (weight : Q) : Q := (10 - inject_Z value) * weight.

Definition specScore (d : MentalHealthForm) : Q :=
  sleepTerm (sleepHours d)
  + (linearTerm (anxietyLevel d) 2
     + linearTerm (stressFrequency d) 2
     + linearTerm (financialStress d) 1.5
     + linearTerm (substanceUse d) 3
     + linearTerm (moodChanges d) 2
     + linearTerm (suicidalThoughts d) 5)
  + (invertedTerm (socialSupport d) 2
     + invertedTerm (workLifeBalance d) 1.5
     + invertedTerm (physicalActivity d) 1).

(** The three recommendation sets, named as the specification names them. *)
Definition recommendationSetA : list string :=
  [ "Continue maintaining healthy habits";
    "Regular exercise and good sleep schedule";
    "Stay connected with friends and family";
    "Practice stress management techniques" ].

Definition recommendationSetB : list string :=
  [ "Consider speaking with a mental health professional";
    "Focus on improving sleep quality and duration";
    "Increase physical activity and social connections";
    "Practice mindfulness and stress reduction techniques";
    "Limit alcohol and substance use" ].

Definition recommendationSetC : list string :=
  [ "Strongly recommend seeking professional mental health support";
    "Contact a crisis helpline if experiencing suicidal thoughts";
    "Reach out to trusted friends, family, or support groups";
    "Consider medication evaluation with a psychiatrist";
    "Develop a safety plan with a mental health professional" ].

(** The per-classification constants, as a table keyed by the
    classification string alone. *)
Definition bucketConfidence (classification : string) : Q :=
  if String.eqb classification "Low Risk" then 0.85
  else if String.eqb classification "Medium Risk" then 0.78
  else 0.82.

Definition bucketRecommendations (classification : string) : list string :=
  if String.eqb classification "Low Risk" then recommendationSetA
  else if String.eqb classification "Medium Risk" then recommendationSetB
  else recommendationSetC.

(** The fields whose increase the specification says raises the score, and
    those whose increase lowers it. *)
Definition riskFields : list Field :=
  [ FSuicidalThoughts; FAnxietyLevel; FStressFrequency; FFinancialStress;
    FSubstanceUse; FMoodChanges ].

Definition protectiveFields : list Field :=
  [ FSocialSupport; FWorkLifeBalance; FPhysicalActivity ].

(** The scenario of the specification's section 8, and the two extreme
    questionnaires. *)
Definition scenarioForm : MentalHealthForm :=
  {| sleepHours := 5; anxietyLevel := 8; stressFrequency := 7;
     financialStress := 6; socialSupport := 3; workLifeBalance := 4;
     physicalActivity := 3; substanceUse := 2; moodChanges := 6;
     suicidalThoughts := 1 |}.

Definition calmestForm : MentalHealthForm :=
  {| sleepHours := 8; anxietyLevel := 1; stressFrequency := 1;
     financialStress := 1; socialSupport := 10; workLifeBalance := 10;
     physicalActivity := 10; substanceUse := 1; moodChanges := 1;
     suicidalThoughts := 1 |}.

Definition gravestForm : MentalHealthForm :=
  {| sleepHours := 0; anxietyLevel := 10; stressFrequency := 10;
     financialStress := 10; socialSupport := 1; workLifeBalance := 1;
     physicalActivity := 1; substanceUse := 10; moodChanges := 10;
     suicidalThoughts := 10 |}.

(** Questionnaires that land exactly on the two thresholds. *)
Definition thirtyForm : MentalHealthForm :=
  {| sleepHours := 8; anxietyLevel := 6; stressFrequency := 6;
     financialStress := 1; socialSupport := 10; workLifeBalance := 10;
     physicalActivity := 10; substanceUse := 1; moodChanges := 6;
     suicidalThoughts := 1 |}.

Definition sixtyForm : MentalHealthForm :=
  {| sleepHours := 8; anxietyLevel := 6; stressFrequency := 6;
     financialStress := 1; socialSupport := 10; workLifeBalance := 10;
     physicalActivity := 10; substanceUse := 1; moodChanges := 6;
     suicidalThoughts := 7 |}.

Local Close Scope Q_scope.
Local Open Scope Z_scope.

(** ** The request body and [assessmentValidation] (routes/assessment.js)

    A value of the JSON body is kept as what the code makes of it: a
    single value whose text denotes the integer [z] (a JSON number or a
    numeric string), any other single value, or an array of values.  A
    missing field is a missing key of the map. *)

#[warnings="-register-all"] Inductive BodyValue : Type :=
| VInt (z : Z)
| VOther
| VArray (elements : list BodyValue).

(** One chain [body(name).isInt({min, max}).withMessage(message)]. *)
Record Rule : Type := mkRule {
  ruleField : string;
  ruleMin : Z;
  ruleMax : Z;
  ruleMessage : string
}.

Definition assessmentValidation : list Rule :=
  [ mkRule "sleepHours" 0 12 "Sleep hours must be between 0 and 12";
    mkRule "anxietyLevel" 1 10 "Anxiety level must be between 1 and 10";
    mkRule "stressFrequency" 1 10 "Stress frequency must be between 1 and 10";
    mkRule "financialStress" 1 10 "Financial stress must be between 1 and 10";
    mkRule "socialSupport" 1 10 "Social support must be between 1 and 10";
    mkRule "workLifeBalance" 1 10 "Work-life balance must be between 1 and 10";
    mkRule "physicalActivity" 1 10 "Physical activity must be between 1 and 10";
    mkRule "substanceUse" 1 10 "Substance use must be between 1 and 10";
    mkRule "moodChanges" 1 10 "Mood changes must be between 1 and 10";
    mkRule "suicidalThoughts" 1 10 "Suicidal thoughts must be between 1 and 10" ].

(** An entry of [errors.array()]: the field and the message of its chain. *)
Record ValidationError : Type := mkError {
  path : string;
  msg : string
}.

(** The integer that JavaScript's [String(v)] denotes, if it denotes one.
    The text of an array is the texts of its elements joined with commas,
    so only an array of one element can read as an integer. *)
Fixpoint joinedInt (v : BodyValue) : option Z :=
  match v with
  | VInt z => Some z
  | VOther => None
  | VArray [x] => joinedInt x
  | VArray _ => None
  end.

(** The text express-validator hands to a validator, read as an integer:
    of a non-empty array it takes the first element, and the text of that
    one as JavaScript gives it. *)
Definition textInt (v : option BodyValue) : option Z :=
  match v with
  | Some (VInt z) => Some z
  | Some (VArray (x :: _)) => joinedInt x
  | _ => None
  end.

Definition isInt (min max : Z) (v : option BodyValue) : bool :=
  match textInt v with
  | Some z => (min <=? z) && (z <=? max)
  | None => false
  end.

(** The values a chain checks for one field: the elements of an array one
    by one, and any other value, also the one of a missing field, itself. *)
Definition checkedValues (v : option BodyValue) : list (option BodyValue) :=
  match v with
  | Some (VArray elements) => Some <$> elements
  | _ => [v]
  end.

(** The entry a failing check adds to [errors.array()]. *)
Definition errorOf (r : Rule) : ValidationError :=
  mkError (ruleField r) (ruleMessage r).

(** One chain: one entry for every checked value that fails. *)
Definition runRule (body : gmap string BodyValue) (r : Rule) : list ValidationError :=
  (fun _ => errorOf r)
    <$> filter (fun value => isInt (ruleMin r) (ruleMax r) value = false)
          (checkedValues (body !! ruleField r)).

(** Every chain runs, whatever the chains before it found. *)
Definition validationResult (body : gmap string BodyValue) : list ValidationError :=
  mjoin (runRule body <$> assessmentValidation).

(** A value is an integer within the range of a rule. *)
Definition integerWithin (r : Rule) (v : BodyValue) : Prop :=
  match textInt (Some v) with
  | Some z => ruleMin r <= z <= ruleMax r
  | None => False
  end.

#[global] Instance integerWithin_dec (r : Rule) (v : BodyValue) :
  Decision (integerWithin r v).
Proof. unfold integerWithin. destruct (textInt (Some v)); apply _. Defined.

(** The values of a field that offend its rule: the value itself when it
    is a single value, the offending elements when it is an array. *)
Definition offences (body : gmap string BodyValue) (r : Rule) : list BodyValue :=
  match body !! ruleField r with
  | None => []
  | Some (VArray elements) => filter (fun e => ¬ integerWithin r e) elements
  | Some v => if decide (integerWithin r v) then [] else [v]
  end.

(** A declared field is violated when it is missing, or is a single value
    that is not an integer within its declared range, or is an array that
    holds such a value. *)
Definition violated (body : gmap string BodyValue) (r : Rule) : Prop :=
  match body !! ruleField r with
  | None => True
  | Some (VArray elements) => Exists (fun e => ¬ integerWithin r e) elements
  | Some v => ¬ integerWithin r v
  end.

#[global] Instance violated_dec (body : gmap string BodyValue) (r : Rule) :
  Decision (violated body r).
Proof.
  unfold violated. destruct (body !! ruleField r) as [[z | | elements] |]; apply _.
Defined.

(** The number of entries a rule adds to [errors.array()]: one for a
    missing field, one for each offending value otherwise. *)
Definition entries (body : gmap string BodyValue) (r : Rule) : nat :=
  match body !! ruleField r with
  | None => 1
  | Some _ => length (offences body r)
  end.


(** The ten numbers of a body whose fields are single integers.  The
    default stands for a field that is none; the schema refuses such a
    body at the save ([castForm]). *)
Definition numberOf (body : gmap string BodyValue) (name : string) : Z :=
  match body !! name with
  | Some (VInt z) => z
  | _ => 0
  end.

Definition toForm (body : gmap string BodyValue) : MentalHealthForm :=
  {| sleepHours := numberOf body "sleepHours";
     anxietyLevel := numberOf body "anxietyLevel";
     stressFrequency := numberOf body "stressFrequency";
     financialStress := numberOf body "financialStress";
     socialSupport := numberOf body "socialSupport";
     workLifeBalance := numberOf body "workLifeBalance";
     physicalActivity := numberOf body "physicalActivity";
     substanceUse := numberOf body "substanceUse";
     moodChanges := numberOf body "moodChanges";
     suicidalThoughts := numberOf body "suicidalThoughts" |}.

(** The JSON body that carries a questionnaire, each field as a number. *)
Definition ofForm (d : MentalHealthForm) : gmap string BodyValue :=
  list_to_map
    [ ("sleepHours", VInt (sleepHours d));
      ("anxietyLevel", VInt (anxietyLevel d));
      ("stressFrequency", VInt (stressFrequency d));
      ("financialStress", VInt (financialStress d));
      ("socialSupport", VInt (socialSupport d));
      ("workLifeBalance", VInt (workLifeBalance d));
      ("physicalActivity", VInt (physicalActivity d));
      ("substanceUse", VInt (substanceUse d));
      ("moodChanges", VInt (moodChanges d));
      ("suicidalThoughts", VInt (suicidalThoughts d)) ].

(** The body holds the questionnaire [d], each field as a single integer. *)
Definition holdsForm (body : gmap string BodyValue) (d : MentalHealthForm) : Prop :=
  body !! "sleepHours" = Some (VInt (sleepHours d)) /\
  body !! "anxietyLevel" = Some (VInt (anxietyLevel d)) /\
  body !! "stressFrequency" = Some (VInt (stressFrequency d)) /\
  body !! "financialStress" = Some (VInt (financialStress d)) /\
  body !! "socialSupport" = Some (VInt (socialSupport d)) /\
  body !! "workLifeBalance" = Some (VInt (workLifeBalance d)) /\
  body !! "physicalActivity" = Some (VInt (physicalActivity d)) /\
  body !! "substanceUse" = Some (VInt (substanceUse d)) /\
  body !! "moodChanges" = Some (VInt (moodChanges d)) /\
  body !! "suicidalThoughts" = Some (VInt (suicidalThoughts d)).

(** ** [generateFallbackPrediction] on the body as the handler passes it

    The handler passes [req.body] itself, so the arithmetic of the engine
    meets whatever the validator let through, and JavaScript turns each
    value into a number first: an array through its text, the empty array
    into 0, and a text that is no number into NaN, here [None].  A single
    value that is no integer does not come this far: the validator has
    refused it. *)
Definition fieldNumber (formData : gmap string BodyValue) (name : string) : option Z :=
  match formData !! name with
  | Some (VArray []) => Some 0
  | Some v => joinedInt v
  | None => None
  end.

(** [x < c] and [x > c]: false on NaN. *)
Definition lessThan (x : option Z) (c : Z) : bool :=
  match x with
  | Some z => z <? c
  | None => false
  end.

Definition greaterThan (x : option Z) (c : Z) : bool :=
  match x with
  | Some z => z >? c
  | None => false
  end.

Local Open Scope Q_scope.

(** [riskScore += term(value)]: NaN once either side is. *)
Definition addTerm (riskScore : option Q) (value : option Z) (term : Q -> Q)
  : option Q :=
  match riskScore, value with
  | Some score, Some z => Some (score + term (inject_Z z))
  | _, _ => None
  end.

(** The running sum of the source on such values, statement by statement. *)
Definition riskScoreOf (formData : gmap string BodyValue) : option Q :=
  let field := fieldNumber formData in
  let riskScore := Some 0 in
  let riskScore :=
    if lessThan (field "sleepHours") 6 then (fun score => score + 15) <$> riskScore
    else if lessThan (field "sleepHours") 7 then (fun score => score + 8) <$> riskScore
    else if greaterThan (field "sleepHours") 9 then (fun score => score + 5) <$> riskScore
    else riskScore in
  let riskScore := addTerm riskScore (field "anxietyLevel") (fun x => (x - 1) * 2) in
  let riskScore := addTerm riskScore (field "stressFrequency") (fun x => (x - 1) * 2) in
  let riskScore := addTerm riskScore (field "financialStress") (fun x => (x - 1) * 1.5) in
  let riskScore := addTerm riskScore (field "socialSupport") (fun x => (10 - x) * 2) in
  let riskScore := addTerm riskScore (field "workLifeBalance") (fun x => (10 - x) * 1.5) in
  let riskScore := addTerm riskScore (field "physicalActivity") (fun x => (10 - x) * 1) in
  let riskScore := addTerm riskScore (field "substanceUse") (fun x => (x - 1) * 3) in
  let riskScore := addTerm riskScore (field "moodChanges") (fun x => (x - 1) * 2) in
  let riskScore := addTerm riskScore (field "suicidalThoughts") (fun x => (x - 1) * 5) in
  riskScore.

(** The classification of such a sum: NaN fails both comparisons of the
    source and so ends in its last branch. *)
Definition fallbackPrediction (formData : gmap string BodyValue) (now : Z)
  : RiskAssessment :=
  match riskScoreOf formData with
  | Some riskScore => classify riskScore now
  | None =>
    {| prediction := "High Risk";
       confidence := 0.82;
       recommendations :=
         [ "Strongly recommend seeking professional mental health support";
           "Contact a crisis helpline if experiencing suicidal thoughts";
           "Reach out to trusted friends, family, or support groups";
           "Consider medication evaluation with a psychiatrist";
           "Develop a safety plan with a mental health professional" ];
       timestamp := now |}
  end.

Local Close Scope Q_scope.

(** ** The value of the variable [prediction] of the submit handler

    It is either [mlResponse.data], whatever the predictor answered, or the
    object of [generateFallbackPrediction].  A property the schema casts
    is kept as what the cast makes of it. *)
Inductive Received (A : Type) : Type :=
| Absent
| Cast (a : A)
| Refused.
Arguments Absent {A}.
Arguments Cast {A} a.
Arguments Refused {A}.

(** [prediction] and [confidence] are [None] when the property is absent
    or is nothing the schema reads as a text or as a number: the schema
    refuses both alike.  [recommendations] and [timestamp] are optional,
    so an absent one is told from one the cast to an array of texts or to
    a date refuses. *)
Module Wire.
Record t : Type := mk {
  prediction : option string;
  confidence : option Q;
  recommendations : Received (list string);
  timestamp : Received Z
}.
End Wire.

Definition assessmentData (r : RiskAssessment) : Wire.t :=
  {| Wire.prediction := Some (prediction r);
     Wire.confidence := Some (confidence r);
     Wire.recommendations := Cast (recommendations r);
     Wire.timestamp := Cast (timestamp r) |}.

(** ** The persisted submission (models/Submission.js) *)

Module Submission.
Record t : Type := mk {
  userId : N;
  formData : MentalHealthForm;
  prediction : Wire.t;
  ipAddress : string;
  userAgent : string;
  createdAt : Z
}.
End Submission.

(** What the handler passes to [new Submission(...)]: the body and the
    prediction as they are. *)
Module Candidate.
Record t : Type := mk {
  userId : N;
  formData : gmap string BodyValue;
  prediction : Wire.t;
  ipAddress : string;
  userAgent : string
}.
End Candidate.

(** [type: Number] of a field of [formData]: a number or a numeric text is
    cast to its number; an array is refused, and a missing field fails
    [required]. *)
Definition castNumber (v : option BodyValue) : option Z :=
  match v with
  | Some (VInt z) => Some z
  | _ => None
  end.

Definition castForm (body : gmap string BodyValue) : option MentalHealthForm :=
  if forallb (fun name => bool_decide (is_Some (castNumber (body !! name))))
       (ruleField <$> assessmentValidation)
  then Some (toForm body)
  else None.

(** [enum: ['Low Risk', 'Medium Risk', 'High Risk'], required: true]. *)
Definition predictionEnum : list string := [ "Low Risk"; "Medium Risk"; "High Risk" ].

Definition enumOk (p : option string) : bool :=
  match p with
  | Some s => bool_decide (s ∈ predictionEnum)
  | None => false
  end.

(** [type: Number, required: true, min: 0, max: 1]. *)
Definition confidenceOk (c : option Q) : bool :=
  match c with
  | Some q => Qle_bool 0 q && Qle_bool q 1
  | None => false
  end.

(** [recommendations: [{type: String}]] and [timestamp: {type: Date}]:
    neither is required, and a value the cast refuses fails the document. *)
Definition castOk {A} (x : Received A) : bool :=
  match x with
  | Refused => false
  | _ => true
  end.

(** [formData]: each field required, within [min] and [max]. *)
Definition formDataOk (d : MentalHealthForm) : bool :=
  forallb (fun f => (fieldMin f <=? getField f d) && (getField f d <=? fieldMax f))
    [ FSleepHours; FAnxietyLevel; FStressFrequency; FFinancialStress;
      FSocialSupport; FWorkLifeBalance; FPhysicalActivity; FSubstanceUse;
      FMoodChanges; FSuicidalThoughts ].

(** What the schema checks of a document whose [formData] was cast. *)
Definition schemaOk (doc : Submission.t) : bool :=
  formDataOk (Submission.formData doc)
  && enumOk (Wire.prediction (Submission.prediction doc))
  && confidenceOk (Wire.confidence (Submission.prediction doc))
  && castOk (Wire.recommendations (Submission.prediction doc))
  && castOk (Wire.timestamp (Submission.prediction doc)).

(** The defaults of the schema: an array path defaults to the empty array,
    and [timestamp: { type: Date, default: Date.now }]. *)
Definition withDefaults (now : Z) (p : Wire.t) : Wire.t :=
  {| Wire.prediction := Wire.prediction p;
     Wire.confidence := Wire.confidence p;
     Wire.recommendations :=
       match Wire.recommendations p with
       | Absent => Cast []
       | received => received
       end;
     Wire.timestamp :=
       match Wire.timestamp p with
       | Absent => Cast now
       | received => received
       end |}.

(** [new Submission(candidate)]: the document Mongoose builds, if the body
    casts to the ten numbers. *)
Definition newSubmission (now : Z) (candidate : Candidate.t) : option Submission.t :=
  match castForm (Candidate.formData candidate) with
  | Some formData =>
    Some {| Submission.userId := Candidate.userId candidate;
            Submission.formData := formData;
            Submission.prediction := withDefaults now (Candidate.prediction candidate);
            Submission.ipAddress := Candidate.ipAddress candidate;
            Submission.userAgent := Candidate.userAgent candidate;
            Submission.createdAt := now |}
  | None => None
  end.
(** ** The server: its store, and the world around one request *)

(** What the server holds between requests: the submissions collection,
    the [assessmentCount] of each user, the feature arrays posted to the
    predictor so far, each entry as the body held it, and the lines written with [console.error]. *)
Record Server : Type := mkServer {
  submissions : list Submission.t;
  assessmentCount : gmap N nat;
  mlRequests : list (list (option BodyValue));
  consoleErrors : list string
}.

(** How one call [axios.post(ML_API_URL/predict, ..., {timeout: 10000})]
    ends: no answer within the timeout, no connection, or an answer with a
    status and a body. *)
Inductive MlOutcome : Type :=
| Timeout
| ConnectionFailure
| Answered (status : Z) (data : Wire.t).

(** What the handlers cannot decide themselves: how the predictor ends its
    k-th call, whether the database takes a write or a read, and the clock
    ([new Date()] in the fallback, [createdAt] at the save). *)
Record World : Type := mkWorld {
  mlReply : nat -> MlOutcome;
  saveAvailable : bool;
  updateAvailable : bool;
  readAvailable : bool;
  clockAtFallback : Z;
  clockAtSave : Z
}.

(** A JavaScript computation over the server: it returns or throws, and
    what it did to the server stays done either way. *)
Inductive Outcome (A : Type) : Type :=
| Returned (a : A)
| Thrown (message : string).
Arguments Returned {A} a.
Arguments Thrown {A} message.

Definition Handler (A : Type) : Type := Server -> Outcome A * Server.

Definition ret {A} (a : A) : Handler A := fun s => (Returned a, s).

Definition throw {A} (message : string) : Handler A := fun s => (Thrown message, s).

Definition bind {A B} (m : Handler A) (k : A -> Handler B) : Handler B :=
  fun s =>
    match m s with
    | (Returned a, s') => k a s'
    | (Thrown e, s') => (Thrown e, s')
    end.

Definition tryCatch {A} (m : Handler A) (handler : string -> Handler A) : Handler A :=
  fun s =>
    match m s with
    | (Returned a, s') => (Returned a, s')
    | (Thrown e, s') => handler e s'
    end.

Declare Scope handler_scope.
Delimit Scope handler_scope with handler.
Notation "x <- m ;; k" := (bind m (fun x => k))
  (at level 100, m at next level, right associativity) : handler_scope.
Notation "m ;; k" := (bind m (fun _ => k))
  (at level 100, right associativity) : handler_scope.
Local Open Scope handler_scope.

Definition consoleError (line : string) : Handler unit :=
  fun s =>
    (Returned tt,
     {| submissions := submissions s;
        assessmentCount := assessmentCount s;
        mlRequests := mlRequests s;
        consoleErrors := consoleErrors s ++ [line] |}).

(** axios resolves on a status in [200, 300) and rejects otherwise, as it
    does on a timeout and on a failed connection. *)
Definition axiosPost (w : World) (features : list (option BodyValue))
  : Handler Wire.t :=
  fun s =>
    let s' :=
      {| submissions := submissions s;
         assessmentCount := assessmentCount s;
         mlRequests := mlRequests s ++ [features];
         consoleErrors := consoleErrors s |} in
    match mlReply w (length (mlRequests s)) with
    | Timeout => (Thrown "timeout of 10000ms exceeded", s')
    | ConnectionFailure => (Thrown "connect ECONNREFUSED", s')
    | Answered status data =>
      if (200 <=? status) && (status <? 300) then (Returned data, s')
      else (Thrown "Request failed with status code", s')
    end.

(** [new Submission(candidate)] and [submission.save()]: the candidate is
    cast, the schema is checked, then the document is written with its
    [createdAt]. *)
Definition save (w : World) (candidate : Candidate.t) : Handler unit :=
  fun s =>
    match newSubmission (clockAtSave w) candidate with
    | None => (Thrown "Submission validation failed", s)
    | Some doc =>
      if negb (schemaOk doc) then (Thrown "Submission validation failed", s)
      else if negb (saveAvailable w) then (Thrown "database unavailable", s)
      else
        (Returned tt,
         {| submissions := submissions s ++ [doc];
            assessmentCount := assessmentCount s;
            mlRequests := mlRequests s;
            consoleErrors := consoleErrors s |})
    end.

(** [User.findByIdAndUpdate(userId, {$inc: {assessmentCount: 1}})]. *)
Definition incAssessmentCount (w : World) (userId : N) : Handler unit :=
  fun s =>
    if negb (updateAvailable w) then (Thrown "database unavailable", s)
    else
      (Returned tt,
       {| submissions := submissions s;
          assessmentCount := alter S userId (assessmentCount s);
          mlRequests := mlRequests s;
          consoleErrors := consoleErrors s |}).

(** ** The responses *)

(** A submission as the history returns it: [select('-ipAddress -userAgent')]. *)
Record HistoryItem : Type := mkItem {
  itemUserId : N;
  itemFormData : MentalHealthForm;
  itemPrediction : Wire.t;
  itemCreatedAt : Z
}.

Record Pagination : Type := mkPagination {
  page : Z;
  limit : Z;
  total : Z;
  pages : Z
}.

Inductive Response : Type :=
| SubmitOk (data : Wire.t)
| ValidationFailed (errors : list ValidationError)
| HistoryOk (data : list HistoryItem) (pagination : Pagination)
| ServerError (message : string).

(** [res.json] answers 200; the two other answers set their status. *)
Definition statusCode (r : Response) : Z :=
  match r with
  | SubmitOk _ => 200
  | HistoryOk _ _ => 200
  | ValidationFailed _ => 400
  | ServerError _ => 500
  end.

(** ** [router.post('/submit', ...)] *)

Record SubmitRequest : Type := mkSubmit {
  reqUser : N;
  reqBody : gmap string BodyValue;
  reqIp : string;
  reqUserAgent : string
}.

Definition features (formData : gmap string BodyValue)
  : list (option BodyValue) :=
  [ formData !! "sleepHours"; formData !! "anxietyLevel";
    formData !! "stressFrequency"; formData !! "financialStress";
    formData !! "socialSupport"; formData !! "workLifeBalance";
    formData !! "physicalActivity"; formData !! "substanceUse";
    formData !! "moodChanges"; formData !! "suicidalThoughts" ].

Definition submitBody (w : World) (req : SubmitRequest) : Handler Response :=
  let errors := validationResult (reqBody req) in
  match errors with
  | _ :: _ => ret (ValidationFailed errors)
  | [] =>
    let formData := reqBody req in
    let userId := reqUser req in
    prediction <-
      tryCatch
        (axiosPost w (features formData))
        (fun mlError =>
           consoleError ("ML API error: " ++ mlError)%string;;
           ret (assessmentData (fallbackPrediction formData (clockAtFallback w))));;
    save w
      {| Candidate.userId := userId;
         Candidate.formData := formData;
         Candidate.prediction := prediction;
         Candidate.ipAddress := reqIp req;
         Candidate.userAgent := reqUserAgent req |};;
    incAssessmentCount w userId;;
    ret (SubmitOk prediction)
  end.

(** The handler with its outer [try]/[catch].  The [catch] only logs and
    answers, so nothing is thrown past it; the last branch is there for
    totality. *)
Definition submit (w : World) (req : SubmitRequest) (s : Server) : Response * Server :=
  match
    tryCatch (submitBody w req)
      (fun error =>
         consoleError ("Assessment submission error: " ++ error)%string;;
         ret (ServerError "Server error during assessment submission")) s
  with
  | (Returned r, s') => (r, s')
  | (Thrown _, s') => (ServerError "Internal server error", s')
  end.

(** ** [router.get('/history', ...)] *)

(** [parseInt(req.query.page)] and [parseInt(req.query.limit)], as the
    integer parsed, or [None] for NaN (an absent or non-numeric parameter). *)
Record HistoryRequest : Type := mkHistory {
  histUser : N;
  queryPage : option Z;
  queryLimit : option Z
}.

(** [x || d] on a parsed number: NaN and 0 are falsy. *)
Definition orDefault (x : option Z) (d : Z) : Z :=
  match x with
  | Some z => if z =? 0 then d else z
  | None => d
  end.

(** [sort({createdAt: -1})]: newest first. *)
Definition newerFirst (a b : Submission.t) : Prop :=
  Submission.createdAt b <= Submission.createdAt a.

#[global] Instance newerFirst_dec : RelDecision newerFirst.
Proof. intros a b. unfold newerFirst. apply _. Defined.

Definition ofUser (userId : N) (l : list Submission.t) : list Submission.t :=
  filter (fun d => Submission.userId d = userId) l.

Definition sortedHistory (userId : N) (s : Server) : list Submission.t :=
  merge_sort newerFirst (ofUser userId (submissions s)).

Definition selectPublic (d : Submission.t) : HistoryItem :=
  {| itemUserId := Submission.userId d;
     itemFormData := Submission.formData d;
     itemPrediction := Submission.prediction d;
     itemCreatedAt := Submission.createdAt d |}.

(** [Submission.find({userId}).sort(...).skip(skip).limit(limit).select(...)]
    as the database runs it: a negative skip is refused, a limit of 0 is no
    limit and a negative limit counts as its absolute value. *)
Definition find (w : World) (userId : N) (skip limit : Z) : Handler (list HistoryItem) :=
  fun s =>
    if negb (readAvailable w) then (Thrown "database unavailable", s)
    else if skip <? 0 then (Thrown "skip value must be non-negative", s)
    else
      let rest := drop (Z.to_nat skip) (sortedHistory userId s) in
      let found := if limit =? 0 then rest else take (Z.to_nat (Z.abs limit)) rest in
      (Returned (selectPublic <$> found), s).

Definition countDocuments (w : World) (userId : N) : Handler Z :=
  fun s =>
    if negb (readAvailable w) then (Thrown "database unavailable", s)
    else (Returned (Z.of_nat (length (ofUser userId (submissions s)))), s).

(** [Math.ceil(total / limit)]. *)
Definition mathCeilDiv (total limit : Z) : Z :=
  Qceiling (inject_Z total / inject_Z limit)%Q.

Definition historyBody (w : World) (req : HistoryRequest) : Handler Response :=
  let userId := histUser req in
  let page := orDefault (queryPage req) 1 in
  let limit := orDefault (queryLimit req) 10 in
  let skip := (page - 1) * limit in
  submissions <- find w userId skip limit;;
  total <- countDocuments w userId;;
  ret (HistoryOk submissions
         {| page := page; limit := limit; total := total;
            pages := mathCeilDiv total limit |}).

(** The handler with its [try]/[catch], as for [submit]. *)
Definition history (w : World) (req : HistoryRequest) (s : Server) : Response * Server :=
  match
    tryCatch (historyBody w req)
      (fun error =>
         consoleError ("Assessment history error: " ++ error)%string;;
         ret (ServerError "Server error fetching assessment history")) s
  with
  | (Returned r, s') => (r, s')
  | (Thrown _, s') => (ServerError "Internal server error", s')
  end.

Local Close Scope handler_scope.

(** ** The dashboard (pages/Dashboard.tsx over types/index.ts) *)

Module Dashboard.

(** ['Low Risk' | 'Medium Risk' | 'High Risk']. *)
Inductive RiskLevel : Type := LowRisk | MediumRisk | HighRisk.

Record RiskAssessment : Type := mkAssessment {
  prediction : RiskLevel;
  confidence : Q;
  recommendations : list string;
  timestamp : string
}.

Module Submission.
Record t : Type := mk {
  id : string;
  userId : string;
  formData : MentalHealthForm;
  prediction : RiskAssessment;
  createdAt : string
}.
End Submission.

(** [const riskLevels = { 'Low Risk': 1, 'Medium Risk': 2, 'High Risk': 3 }]. *)
Definition riskLevels (l : RiskLevel) : Z :=
  match l with
  | LowRisk => 1
  | MediumRisk => 2
  | HighRisk => 3
  end.

(** [null] is [None]. *)
Definition getRiskTrend (assessmentHistory : list Submission.t) : option string :=
  if (length assessmentHistory <? 2)%nat then None
  else
    match assessmentHistory !! 0%nat, assessmentHistory !! 1%nat with
    | Some latest, Some previous =>
      let latestLevel := riskLevels (prediction (Submission.prediction latest)) in
      let previousLevel := riskLevels (prediction (Submission.prediction previous)) in
      if latestLevel <? previousLevel then Some "improving"
      else if latestLevel >? previousLevel then Some "worsening"
      else Some "stable"
    | _, _ => None
    end.

(** The classification of a submission. *)
Definition levelOf (a : Submission.t) : RiskLevel :=
  prediction (Submission.prediction a).

(** The classifications of a history, newest first. *)
Definition classifications (h : list Submission.t) : list RiskLevel :=
  (fun s => prediction (Submission.prediction s)) <$> h.

(** The same submission with another classification. *)
Definition withLevel (l : RiskLevel) (s : Submission.t) : Submission.t :=
  {| Submission.id := Submission.id s;
     Submission.userId := Submission.userId s;
     Submission.formData := Submission.formData s;
     Submission.prediction :=
       {| prediction := l;
          confidence := confidence (Submission.prediction s);
          recommendations := recommendations (Submission.prediction s);
          timestamp := timestamp (Submission.prediction s) |};
     Submission.createdAt := Submission.createdAt s |}.

(** A submission to set classifications on. *)
Definition blankSubmission : Submission.t :=
  {| Submission.id := "s1"; Submission.userId := "u7";
     Submission.formData := calmestForm;
     Submission.prediction :=
       {| prediction := LowRisk; confidence := 0.85%Q;
          recommendations := recommendationSetA;
          timestamp := "2024-01-01T00:00:00.000Z" |};
     Submission.createdAt := "2024-01-01T00:00:00.000Z" |}.

End Dashboard.

(** ** The ways a predictor call can fail, and the worlds of the examples *)

(** The calls [axios.post] rejects: the ones the [catch] of the submit
    handler sees. *)
Definition axiosRejects (o : MlOutcome) : Prop :=
  match o with
  | Timeout | ConnectionFailure => True
  | Answered status _ => ¬ (200 <= status < 300)
  end.

(** The shape the specification expects of an answer (section 6): one of
    the three classifications and a confidence within 0 and 1. *)
Definition wellShaped (data : Wire.t) : bool :=
  enumOk (Wire.prediction data) && confidenceOk (Wire.confidence data).

(** A failure of the predictor call as the specification counts it
    (section 4.3): timeout, connection failure, non-success status, or an
    answer that is not of the expected shape. *)
Definition predictorFailed (o : MlOutcome) : Prop :=
  match o with
  | Timeout | ConnectionFailure => True
  | Answered status data => ¬ (200 <= status < 300) \/ wellShaped data = false
  end.

(** The same world, with a predictor that ends every call in [o]. *)
Definition answering (w : World) (o : MlOutcome) : World :=
  {| mlReply := fun _ => o;
     saveAvailable := saveAvailable w;
     updateAvailable := updateAvailable w;
     readAvailable := readAvailable w;
     clockAtFallback := clockAtFallback w;
     clockAtSave := clockAtSave w |}.

(** The prediction of the fallback path. *)
Definition fallbackData (w : World) (req : SubmitRequest) : Wire.t :=
  assessmentData (fallbackPrediction (reqBody req) (clockAtFallback w)).

(** What the [catch] of the submit handler answers. *)
Definition submissionServerError : Response :=
  ServerError "Server error during assessment submission".

Definition emptyServer : Server :=
  {| submissions := []; assessmentCount := ∅; mlRequests := []; consoleErrors := [] |}.

(** A world whose database works and whose predictor ends its calls in [o]. *)
Definition worldWith (o : MlOutcome) : World :=
  {| mlReply := fun _ => o;
     saveAvailable := true;
     updateAvailable := true;
     readAvailable := true;
     clockAtFallback := 1700000000000;
     clockAtSave := 1700000000001 |}.

Definition scenarioRequest : SubmitRequest :=
  {| reqUser := 7%N;
     reqBody := ofForm scenarioForm;
     reqIp := "203.0.113.9";
     reqUserAgent := "Mozilla/5.0" |}.

(** A success answer that carries none of the expected properties. *)
Definition shapelessAnswer : MlOutcome :=
  Answered 200
    {| Wire.prediction := None; Wire.confidence := None;
       Wire.recommendations := Absent; Wire.timestamp := Absent |}.

(** A body with two violations: [sleepHours] out of range and
    [anxietyLevel] missing. *)
Definition twiceWrongRequest : SubmitRequest :=
  {| reqUser := 7%N;
     reqBody :=
       delete "anxietyLevel" (<["sleepHours" := VInt 13]> (ofForm scenarioForm));
     reqIp := "203.0.113.9";
     reqUserAgent := "Mozilla/5.0" |}.

(** A body whose [sleepHours] is the array [[5]], and one whose
    [anxietyLevel] is the array [[3, 4]]: every element is an integer
    within the range of its field. *)
Definition arrayRequest : SubmitRequest :=
  {| reqUser := 7%N;
     reqBody := <["sleepHours" := VArray [VInt 5]]> (ofForm scenarioForm);
     reqIp := "203.0.113.9";
     reqUserAgent := "Mozilla/5.0" |}.



(** A success answer of the expected shape whose [timestamp] is no date. *)
Definition undatedAnswer : MlOutcome :=
  Answered 200
    {| Wire.prediction := Some "Low Risk"; Wire.confidence := Some 0.85%Q;
       Wire.recommendations := Cast []; Wire.timestamp := Refused |}.

(** ** A store for the pagination example

    Twenty-five submissions of user 7, created at the instants 1 to 25,
    between two submissions of user 8. *)
Definition stored (userId : N) (time : Z) : Submission.t :=
  {| Submission.userId := userId;
     Submission.formData := scenarioForm;
     Submission.prediction :=
       assessmentData (generateFallbackPrediction scenarioForm time);
     Submission.ipAddress := "203.0.113.9";
     Submission.userAgent := "Mozilla/5.0";
     Submission.createdAt := time |}.

Definition twentyFiveServer : Server :=
  {| submissions := stored 8 3 :: (stored 7 <$> seqZ 1 25) ++ [stored 8 30];
     assessmentCount := {[ 7%N := 25%nat; 8%N := 2%nat ]};
     mlRequests := [];
     consoleErrors := [] |}.

(** The history request of a user for page [p] of size [n]. *)
Definition pageRequest (userId : N) (p n : Z) : HistoryRequest :=
  {| histUser := userId; queryPage := Some p; queryLimit := Some n |}.

(** ** The authentication middleware (middleware/auth.js)

    Both routes run [authMiddleware] before anything else.  The model of
    the user (models/User.js) is not among the sources; a user is kept as
    the two fields the sources read, [_id] and [isActive]. *)

Record User : Type := mkUser {
  _id : N;
  isActive : bool
}.

(** The string without its first [n] characters. *)
Fixpoint dropChars (n : nat) (s : string) : string :=
  match n, s with
  | O, _ => s
  | S n', String _ rest => dropChars n' rest
  | S _, EmptyString => EmptyString
  end.

(** [s.replace(pattern, replacement)] for a string pattern: the first
    occurrence, from the left, is replaced and no other. *)
Fixpoint replaceFirst (pattern replacement s : string) : string :=
  if String.prefix pattern s then
    (replacement ++ dropChars (String.length pattern) s)%string
  else
    match s with
    | EmptyString => EmptyString
    | String c rest => String c (replaceFirst pattern replacement rest)
    end.

(** Whether [pattern] occurs somewhere in [s]. *)
Fixpoint occursIn (pattern s : string) : bool :=
  String.prefix pattern s ||
  match s with
  | EmptyString => false
  | String _ rest => occursIn pattern rest
  end.

(** How [jwt.verify(token, secret)] ends: the decoded [userId], or an
    error with one of the two names the [catch] tells apart, or any other
    error. *)
Inductive JwtOutcome : Type :=
| Verified (userId : N)
| JsonWebTokenError
| TokenExpiredError
| OtherVerifyError.

(** How [User.findById(id).select('-password')] ends. *)
Inductive FindOutcome : Type :=
| Found (user : User)
| NotFound
| FindFailed.

(** What the middleware cannot decide itself. *)
Record AuthWorld : Type := mkAuthWorld {
  jwtVerify : string -> JwtOutcome;
  findById : N -> FindOutcome
}.

(** The middleware either calls [next()] with [req.user] set, or answers. *)
Inductive AuthResult : Type :=
| Next (user : User)
| Deny (status : Z) (message : string).

(** [req.header('Authorization')?.replace('Bearer ', '')]. *)
Definition tokenOf (authorization : option string) : option string :=
  replaceFirst "Bearer " "" <$> authorization.

(** The part of the [try] behind the test of the token. *)
Definition verifyAndLoad (aw : AuthWorld) (token : string) : AuthResult :=
  match jwtVerify aw token with
  | Verified userId =>
    match findById aw userId with
    | Found user =>
      if negb (isActive user) then Deny 401 "Invalid token or user not found."
      else Next user
    | NotFound => Deny 401 "Invalid token or user not found."
    | FindFailed => Deny 500 "Server error during authentication."
    end
  | JsonWebTokenError => Deny 401 "Invalid token."
  | TokenExpiredError => Deny 401 "Token expired."
  | OtherVerifyError => Deny 500 "Server error during authentication."
  end.

(** [!token] holds for a missing header and for the empty string. *)
Definition authMiddleware (aw : AuthWorld) (authorization : option string) : AuthResult :=
  match tokenOf authorization with
  | None => Deny 401 "Access denied. No token provided."
  | Some token =>
    if String.eqb token "" then Deny 401 "Access denied. No token provided."
    else verifyAndLoad aw token
  end.

(** ** The two routes, middleware first (routes/assessment.js) *)

Inductive RouteResponse : Type :=
| Handled (response : Response)
| Denied (status : Z) (message : string).

Definition routeStatus (r : RouteResponse) : Z :=
  match r with
  | Handled response => statusCode response
  | Denied status _ => status
  end.

(** [router.post('/submit', authMiddleware, assessmentValidation, ...)]. *)
Definition postSubmit (aw : AuthWorld) (w : World) (authorization : option string)
    (body : gmap string BodyValue) (ip userAgent : string) (s : Server)
  : RouteResponse * Server :=
  match authMiddleware aw authorization with
  | Deny status message => (Denied status message, s)
  | Next user =>
    let '(response, s') :=
      submit w {| reqUser := _id user; reqBody := body;
                  reqIp := ip; reqUserAgent := userAgent |} s in
    (Handled response, s')
  end.

(** [router.get('/history', authMiddleware, ...)]. *)
Definition getHistory (aw : AuthWorld) (w : World) (authorization : option string)
    (queryPage queryLimit : option Z) (s : Server) : RouteResponse * Server :=
  match authMiddleware aw authorization with
  | Deny status message => (Denied status message, s)
  | Next user =>
    let '(response, s') :=
      history w {| histUser := _id user; queryPage := queryPage;
                   queryLimit := queryLimit |} s in
    (Handled response, s')
  end.

(** A run of submit requests, each in its own world. *)
Definition serve (requests : list (World * SubmitRequest)) (s : Server) : Server :=
  foldl (fun s wr => snd (submit (fst wr) (snd wr) s)) s requests.

(** The document the save writes for the prediction [data] when the body
    casts to its ten numbers. *)
Definition remoteDocument (w : World) (req : SubmitRequest) (data : Wire.t)
  : Submission.t :=
  {| Submission.userId := reqUser req;
     Submission.formData := toForm (reqBody req);
     Submission.prediction := withDefaults (clockAtSave w) data;
     Submission.ipAddress := reqIp req;
     Submission.userAgent := reqUserAgent req;
     Submission.createdAt := clockAtSave w |}.

Definition isSubmitOk (r : Response) : bool :=
  match r with
  | SubmitOk _ => true
  | _ => false
  end.

(** The ten declared field names. *)
Definition declaredFields : list string := ruleField <$> assessmentValidation.

(** ** The client (services/api.ts) *)

(** The request interceptor: the [Authorization] header it sets, from the
    token in [localStorage]; an empty token is falsy. *)
Definition requestInterceptor (localStorage : gmap string string) : option string :=
  match localStorage !! "mindguard_token" with
  | Some token =>
    if String.eqb token "" then None else Some ("Bearer " ++ token)%string
  | None => None
  end.

(** The response interceptor on an error with status [status]
    ([error.response?.status], absent without a response): what it leaves
    in [localStorage]. *)
Definition responseErrorInterceptor (status : option Z)
    (localStorage : gmap string string) : gmap string string :=
  match status with
  | Some 401 => delete "mindguard_user" (delete "mindguard_token" localStorage)
  | _ => localStorage
  end.

(** The status the client sees of a route response: an answer outside
    [200, 300) is an error with that status. *)
Definition errorStatus (r : RouteResponse) : option Z :=
  let status := routeStatus r in
  if (200 <=? status) && (status <? 300) then None else Some status.

(** [localStorage] after the answer of a route has passed the response
    interceptors: the first passes a success on, the second sees an error. *)
Definition storageAfter (r : RouteResponse) (localStorage : gmap string string)
  : gmap string string :=
  match errorStatus r with
  | Some status => responseErrorInterceptor (Some status) localStorage
  | None => localStorage
  end.

(** ** The questionnaire form (components/AssessmentForm.tsx) *)

(** The initial state of [formData]. *)
Definition initialFormData : MentalHealthForm :=
  {| sleepHours := 7; anxietyLevel := 3; stressFrequency := 3;
     financialStress := 3; socialSupport := 7; workLifeBalance := 5;
     physicalActivity := 5; substanceUse := 1; moodChanges := 3;
     suicidalThoughts := 1 |}.

Record Question : Type := mkQuestion {
  qKey : Field;
  qLabel : string;
  qMin : Z;
  qMax : Z;
  qUnit : string;
  qLowLabel : string;
  qHighLabel : string
}.

Definition questions : list Question :=
  [ mkQuestion FSleepHours "How many hours do you sleep per night on average?"
      0 12 "hours" "Very little" "Plenty";
    mkQuestion FAnxietyLevel "How often do you feel anxious or worried?"
      1 10 "" "Never" "Always";
    mkQuestion FStressFrequency "How frequently do you experience stress?"
      1 10 "" "Rarely" "Constantly";
    mkQuestion FFinancialStress "How much financial stress do you experience?"
      1 10 "" "None" "Severe";
    mkQuestion FSocialSupport "How strong is your social support system?"
      1 10 "" "Very weak" "Very strong";
    mkQuestion FWorkLifeBalance "How would you rate your work-life balance?"
      1 10 "" "Very poor" "Excellent";
    mkQuestion FPhysicalActivity "How often do you engage in physical activity?"
      1 10 "" "Never" "Daily";
    mkQuestion FSubstanceUse "How often do you use alcohol or substances to cope?"
      1 10 "" "Never" "Very often";
    mkQuestion FMoodChanges "How often do you experience sudden mood changes?"
      1 10 "" "Never" "Very often";
    mkQuestion FSuicidalThoughts "Have you had thoughts of self-harm or suicide?"
      1 10 "" "Never" "Frequently" ].

(** [setFormData(prev => ({ ...prev, [field]: value }))]. *)
Definition handleSliderChange (field : Field) (value : Z) (prev : MentalHealthForm)
  : MentalHealthForm :=
  setField field value prev.

(** A move of the slider of a question: the range input yields an integer
    between the [min] and the [max] of the question. *)
Definition sliderMove (q : Question) (value : Z) : Prop :=
  q ∈ questions /\ qMin q <= value <= qMax q.

(** The state of [formData] after a series of slider changes. *)
Definition formAfter (moves : list (Question * Z)) : MentalHealthForm :=
  foldl (fun d m => handleSliderChange (qKey (fst m)) (snd m) d) initialFormData moves.

(** ** Examples for the middleware and the form *)

Definition activeUser : User := {| _id := 7; isActive := true |}.

(** A world in which the token [good] verifies for user 7, [old] has
    expired, and nothing else verifies. *)
Definition authWorld : AuthWorld :=
  {| jwtVerify := fun token =>
       if String.eqb token "good" then Verified 7
       else if String.eqb token "old" then TokenExpiredError
       else JsonWebTokenError;
     findById := fun userId =>
       if (userId =? 7)%N then Found activeUser else NotFound |}.


(** What the handler passes to [new Submission(...)] with the prediction
    [data]. *)
Definition candidate (req : SubmitRequest) (data : Wire.t) : Candidate.t :=
  {| Candidate.userId := reqUser req;
     Candidate.formData := reqBody req;
     Candidate.prediction := data;
     Candidate.ipAddress := reqIp req;
     Candidate.userAgent := reqUserAgent req |}.

(** What the save asks of a validated body and of a prediction: the body
    casts to the ten numbers, the prediction has its classification and
    its confidence, and its recommendations and timestamp, if given, cast
    to texts and to a date. *)
Definition saveAccepts (body : gmap string BodyValue) (data : Wire.t) : bool :=
  bool_decide (is_Some (castForm body))
  && wellShaped data
  && castOk (Wire.recommendations data)
  && castOk (Wire.timestamp data).

(** The submit handler from the save on, with the prediction [data]: the
    three results it can have, and the one line the outer [catch] logs. *)
Definition saveAndCount (w : World) (req : SubmitRequest) (data : Wire.t)
    (s : Server) : Response * Server :=
  if saveAccepts (reqBody req) data then
    if saveAvailable w then
      if updateAvailable w then
        (SubmitOk data,
         {| submissions := submissions s ++ [remoteDocument w req data];
            assessmentCount := alter S (reqUser req) (assessmentCount s);
            mlRequests := mlRequests s;
            consoleErrors := consoleErrors s |})
      else
        (submissionServerError,
         {| submissions := submissions s ++ [remoteDocument w req data];
            assessmentCount := assessmentCount s;
            mlRequests := mlRequests s;
            consoleErrors :=
              consoleErrors s
              ++ ["Assessment submission error: database unavailable"] |})
    else
      (submissionServerError,
       {| submissions := submissions s;
          assessmentCount := assessmentCount s;
          mlRequests := mlRequests s;
          consoleErrors :=
            consoleErrors s
            ++ ["Assessment submission error: database unavailable"] |})
  else
    (submissionServerError,
     {| submissions := submissions s;
        assessmentCount := assessmentCount s;
        mlRequests := mlRequests s;
        consoleErrors :=
          consoleErrors s
          ++ ["Assessment submission error: Submission validation failed"] |}).

(** The server after the post to the predictor, and after the line the
    inner [catch] logs. *)
Definition posted (req : SubmitRequest) (s : Server) : Server :=
  {| submissions := submissions s;
     assessmentCount := assessmentCount s;
     mlRequests := mlRequests s ++ [features (reqBody req)];
     consoleErrors := consoleErrors s |}.

Definition logged (line : string) (s : Server) : Server :=
  {| submissions := submissions s;
     assessmentCount := assessmentCount s;
     mlRequests := mlRequests s;
     consoleErrors := consoleErrors s ++ [line] |}.
(** * Properties of the scoring engine *)

Section Scoring.

Local Open Scope Q_scope.

(** The three sleep tests of the running sum, as hypotheses on [Z]. *)
Ltac sleep_cases d :=
  rewrite ?Z.gtb_ltb;
  destruct (Z.ltb_spec (sleepHours d) 6);
  destruct (Z.ltb_spec (sleepHours d) 7);
  destruct (Z.ltb_spec 9 (sleepHours d));
  try lia.

(** Bounds on an integer field, read in [Q]. *)
Lemma inject_bounds (z : Z) :
  (1 <= z <= 10)%Z -> 1 <= inject_Z z /\ inject_Z z <= 10.
Proof.
  intros [Hl Hh]. split.
  - change 1 with (inject_Z 1). rewrite <- Zle_Qle. assumption.
  - change 10 with (inject_Z 10). rewrite <- Zle_Qle. assumption.
Qed.

Lemma sleepTerm_running (d : MentalHealthForm) :
  (if (sleepHours d <? 6)%Z then 0 + 15
   else if (sleepHours d <? 7)%Z then 0 + 8
   else if (sleepHours d >? 9)%Z then 0 + 5 else 0) == sleepTerm (sleepHours d).
Proof. unfold sleepTerm. sleep_cases d; lra.
Qed.

Lemma sleepTerm_bounds (h : Z) : 0 <= sleepTerm h /\ sleepTerm h <= 15.
Proof.
  unfold sleepTerm.
  destruct (h <? 6)%Z; [| destruct (h <? 7)%Z; [| destruct (h >? 9)%Z]]; lra.
Qed.

Lemma riskScore_specScore (d : MentalHealthForm) : riskScore d == specScore d.
Proof.
  unfold riskScore, specScore, linearTerm, invertedTerm.
  cbv zeta. rewrite <- (sleepTerm_running d).
  generalize (if (sleepHours d <? 6)%Z then 0 + 15
              else if (sleepHours d <? 7)%Z then 0 + 8
              else if (sleepHours d >? 9)%Z then 0 + 5 else 0).
  intros q. lra.
Qed.

Lemma specScore_bounds (d : MentalHealthForm) :
  validForm d -> 0 <= specScore d /\ specScore d <= 195.
Proof.
  intros (Hsl & Han & Hst & Hfi & Hso & Hwo & Hph & Hsu & Hmo & Hsc).
  unfold specScore, linearTerm, invertedTerm.
  pose proof (sleepTerm_bounds (sleepHours d)) as [? ?].
  apply inject_bounds in Han, Hst, Hfi, Hso, Hwo, Hph, Hsu, Hmo, Hsc.
  destruct Han, Hst, Hfi, Hso, Hwo, Hph, Hsu, Hmo, Hsc.
  split; lra.
Qed.

(** On validated input the score is [k / 2] for an integer [k] between 0
    and 390: binary64 holds it, and every partial sum, exactly. *)
Lemma riskScore_half_integer (d : MentalHealthForm) :
  validForm d ->
  exists k : Z, (0 <= k <= 390)%Z /\ riskScore d == inject_Z k / 2.
Proof.
  intros Hv.
  set (sl := if (sleepHours d <? 6)%Z then 30%Z
             else if (sleepHours d <? 7)%Z then 16%Z
             else if (sleepHours d >? 9)%Z then 10%Z else 0%Z).
  exists (sl + 4 * (anxietyLevel d - 1) + 4 * (stressFrequency d - 1)
          + 3 * (financialStress d - 1) + 4 * (10 - socialSupport d)
          + 3 * (10 - workLifeBalance d) + 2 * (10 - physicalActivity d)
          + 6 * (substanceUse d - 1) + 4 * (moodChanges d - 1)
          + 10 * (suicidalThoughts d - 1))%Z.
  split.
  - destruct Hv as (Hsl & Han & Hst & Hfi & Hso & Hwo & Hph & Hsu & Hmo & Hsc).
    subst sl. sleep_cases d.
  - subst sl. unfold riskScore. cbv zeta.
    repeat (rewrite ?inject_Z_plus, ?inject_Z_mult, ?inject_Z_opp; unfold Z.sub).
    sleep_cases d; cbn [inject_Z]; field_simplify_eq; lra.
Qed.

Lemma Qle_bool_false (x y : Q) : Qle_bool x y = false -> y < x.
Proof.
  intros E. apply Qnot_le_lt. intros H.
  apply Qle_bool_iff in H. congruence.
Qed.

(** The three buckets of [classify], for any score at all. *)
Lemma classify_spec (q : Q) (now : Z) :
  (q <= 30 /\ classify q now = mkAssessment "Low Risk" 0.85 recommendationSetA now) \/
  (30 < q /\ q <= 60 /\
   classify q now = mkAssessment "Medium Risk" 0.78 recommendationSetB now) \/
  (60 < q /\ classify q now = mkAssessment "High Risk" 0.82 recommendationSetC now).
Proof.
  unfold classify.
  destruct (Qle_bool q 30) eqn:E30.
  - left. split; [by apply Qle_bool_iff | reflexivity].
  - apply Qle_bool_false in E30.
    destruct (Qle_bool q 60) eqn:E60.
    + right; left. split; [assumption |]. split; [by apply Qle_bool_iff | reflexivity].
    + right; right. split; [by apply Qle_bool_false | reflexivity].
Qed.

(** A field that a list of fields does not name. *)
Ltac not_listed Hin :=
  exfalso;
  repeat (apply elem_of_cons in Hin as [? | Hin]; [discriminate |]);
  by apply elem_of_nil in Hin.

(** Both sums share their sleep summand; the rest is linear. *)
Ltac one_field_changed sl :=
  unfold riskScore;
  cbn [setField sleepHours anxietyLevel stressFrequency financialStress
       socialSupport workLifeBalance physicalActivity substanceUse
       moodChanges suicidalThoughts];
  cbv zeta;
  generalize (if (sl <? 6)%Z then 0 + 15
              else if (sl <? 7)%Z then 0 + 8
              else if (sl >? 9)%Z then 0 + 5 else 0);
  intros q; lra.

(** Changing one risk field: the running sum moves with it. *)
Lemma riskScore_rises (d : MentalHealthForm) (f : Field) (v v' : Z) :
  (v <= v')%Z -> f ∈ riskFields ->
  riskScore (setField f v d) <= riskScore (setField f v' d).
Proof.
  intros Hle Hin. rewrite Zle_Qle in Hle.
  destruct d as [sl an st fi so wo ph su mo sc], f;
    try (not_listed Hin);
    one_field_changed sl.
Qed.

(** Changing one protective field: the running sum moves against it. *)
Lemma riskScore_falls (d : MentalHealthForm) (f : Field) (v v' : Z) :
  (v <= v')%Z -> f ∈ protectiveFields ->
  riskScore (setField f v' d) <= riskScore (setField f v d).
Proof.
  intros Hle Hin. rewrite Zle_Qle in Hle.
  destruct d as [sl an st fi so wo ph su mo sc], f;
    try (not_listed Hin);
    one_field_changed sl.
Qed.

(** C1. Whatever the ten fields hold, and so for every valid
    questionnaire, the running sum of the fallback engine is the sleep
    bucket term (15 below 6 hours, else 8 below 7, else 5 above 9, else 0)
    plus the six terms (value - 1) * weight with weights 2, 2, 1.5, 3, 2
    and 5, plus the three terms (10 - value) * weight with weights 2, 1.5
    and 1.  The sum is returned as it is: nothing clamps it from below
    or from above. *)
Theorem fallback_score_is_weighted_sum (d : MentalHealthForm) :
  riskScore d ==
    sleepTerm (sleepHours d)
    + (linearTerm (anxietyLevel d) 2
       + linearTerm (stressFrequency d) 2
       + linearTerm (financialStress d) 1.5
       + linearTerm (substanceUse d) 3
       + linearTerm (moodChanges d) 2
       + linearTerm (suicidalThoughts d) 5)
    + (invertedTerm (socialSupport d) 2
       + invertedTerm (workLifeBalance d) 1.5
       + invertedTerm (physicalActivity d) 1).
Proof. exact (riskScore_specScore d). Qed.

(** C2. The classification of a fallback score uses inclusive bounds taken
    in order: a score of at most 30 is Low Risk with confidence 0.85 and
    set A, a score above 30 and at most 60 is Medium Risk with confidence
    0.78 and set B, a score above 60 is High Risk with confidence 0.82 and
    set C.  Confidence and recommendations are functions of the
    classification alone.  A questionnaire scoring exactly 30 is Low Risk
    and one scoring exactly 60 is Medium Risk. *)
Theorem fallback_classification_buckets (d : MentalHealthForm) (now : Z) :
  let r := generateFallbackPrediction d now in
  ((riskScore d <= 30 /\ prediction r = "Low Risk" /\
    confidence r = 0.85 /\ recommendations r = recommendationSetA) \/
   (30 < riskScore d /\ riskScore d <= 60 /\ prediction r = "Medium Risk" /\
    confidence r = 0.78 /\ recommendations r = recommendationSetB) \/
   (60 < riskScore d /\ prediction r = "High Risk" /\
    confidence r = 0.82 /\ recommendations r = recommendationSetC)) /\
  confidence r = bucketConfidence (prediction r) /\
  recommendations r = bucketRecommendations (prediction r) /\
  (validForm thirtyForm /\ riskScore thirtyForm == 30 /\
   prediction (generateFallbackPrediction thirtyForm now) = "Low Risk") /\
  (validForm sixtyForm /\ riskScore sixtyForm == 60 /\
   prediction (generateFallbackPrediction sixtyForm now) = "Medium Risk").
Proof.
  intros r. subst r. unfold generateFallbackPrediction.
  split; [| split; [| split; [| split]]].
  - destruct (classify_spec (riskScore d) now) as [[H E] | [(H1 & H2 & E) | [H E]]];
      rewrite E; cbn; auto 10.
  - destruct (classify_spec (riskScore d) now) as [[H E] | [(H1 & H2 & E) | [H E]]];
      rewrite E; reflexivity.
  - destruct (classify_spec (riskScore d) now) as [[H E] | [(H1 & H2 & E) | [H E]]];
      rewrite E; reflexivity.
  - split; [unfold validForm; cbn; lia |]. split; reflexivity.
  - split; [unfold validForm; cbn; lia |]. split; reflexivity.
Qed.

(** C4. With the other nine fields fixed, a larger value of
    suicidalThoughts, anxietyLevel, stressFrequency, financialStress,
    substanceUse or moodChanges never gives a smaller score, and a larger
    value of socialSupport, workLifeBalance or physicalActivity never
    gives a larger score. *)
Theorem fallback_score_monotone
    (d : MentalHealthForm) (f : Field) (v v' : Z) (Hle : (v <= v')%Z) :
  (f ∈ riskFields -> riskScore (setField f v d) <= riskScore (setField f v' d)) /\
  (f ∈ protectiveFields -> riskScore (setField f v' d) <= riskScore (setField f v d)).
Proof.
  split; intros Hin.
  - by apply riskScore_rises.
  - by apply riskScore_falls.
Qed.

(** C5. The questionnaire of the end-to-end scenario scores 91.5, the sum
    15 + 14 + 12 + 7.5 + 14 + 9 + 7 + 3 + 10 + 0, and the fallback engine
    answers High Risk with confidence 0.82 and recommendation set C. *)
Theorem fallback_scenario (now : Z) :
  riskScore scenarioForm == 91.5 /\
  15 + 14 + 12 + 7.5 + 14 + 9 + 7 + 3 + 10 + 0 == 91.5 /\
  generateFallbackPrediction scenarioForm now =
    {| prediction := "High Risk"; confidence := 0.82;
       recommendations := recommendationSetC; timestamp := now |}.
Proof. split; [reflexivity |]. split; reflexivity. Qed.

(** C10. For a valid questionnaire the fallback score lies between 0 and
    195, both bounds being reached (195 is above 100), and the answer
    satisfies the schema of the persisted prediction: the classification
    is one of the three strings, the confidence is one of 0.85, 0.78 and
    0.82 and so within 0 and 1, and there are four recommendations for
    Low Risk and five for Medium and High Risk. *)
Theorem fallback_output_fits_schema
    (d : MentalHealthForm) (now : Z) (Hvalid : validForm d) :
  let r := generateFallbackPrediction d now in
  (0 <= riskScore d /\ riskScore d <= 195) /\
  (validForm calmestForm /\ riskScore calmestForm == 0) /\
  (validForm gravestForm /\ riskScore gravestForm == 195) /\
  prediction r ∈ predictionEnum /\
  (confidence r = 0.85 \/ confidence r = 0.78 \/ confidence r = 0.82) /\
  (0 <= confidence r /\ confidence r <= 1) /\
  recommendations r <> [] /\
  length (recommendations r) =
    (if String.eqb (prediction r) "Low Risk" then 4 else 5)%nat /\
  enumOk (Some (prediction r)) && confidenceOk (Some (confidence r)) = true.
Proof.
  intros r. subst r. unfold generateFallbackPrediction.
  split.
  { rewrite (riskScore_specScore d). by apply specScore_bounds. }
  split; [split; [unfold validForm; cbn; lia | reflexivity] |].
  split; [split; [unfold validForm; cbn; lia | reflexivity] |].
  destruct (classify_spec (riskScore d) now) as [[H E] | [(H1 & H2 & E) | [H E]]];
    rewrite E; cbn [prediction confidence recommendations];
    (split; [unfold predictionEnum; set_solver |]);
    (split; [auto |]);
    (split; [split; discriminate |]);
    (split; [discriminate |]);
    split; reflexivity.
Qed.

End Scoring.

Lemma fallback_score_monotone_witness :
  ((3 <= 7)%Z /\ FAnxietyLevel ∈ riskFields /\ FSocialSupport ∈ protectiveFields) /\
  (riskScore (setField FAnxietyLevel 3 scenarioForm)
   <= riskScore (setField FAnxietyLevel 7 scenarioForm))%Q /\
  (riskScore (setField FSocialSupport 7 scenarioForm)
   <= riskScore (setField FSocialSupport 3 scenarioForm))%Q.
Proof.
  assert (Hle : (3 <= 7)%Z) by lia.
  assert (Han : FAnxietyLevel ∈ riskFields)
    by (unfold riskFields; apply elem_of_cons; right; apply elem_of_cons; by left).
  assert (Hso : FSocialSupport ∈ protectiveFields)
    by (unfold protectiveFields; apply elem_of_cons; by left).
  split; [by repeat split |]. split.
  - exact (proj1 (fallback_score_monotone scenarioForm FAnxietyLevel 3 7 Hle) Han).
  - exact (proj2 (fallback_score_monotone scenarioForm FSocialSupport 3 7 Hle) Hso).
Defined.

Lemma fallback_output_fits_schema_witness :
  validForm scenarioForm /\
  (0 <= riskScore scenarioForm /\ riskScore scenarioForm <= 195)%Q /\
  prediction (generateFallbackPrediction scenarioForm 0) ∈ predictionEnum.
Proof.
  assert (Hv : validForm scenarioForm) by (unfold validForm; cbn; lia).
  split; [exact Hv |].
  pose proof (fallback_output_fits_schema scenarioForm 0 Hv) as H.
  cbv zeta in H. destruct H as (Hb & _ & _ & He & _).
  split; [exact Hb | exact He].
Defined.

(** * Properties of the validator *)

Section Validator.

Implicit Types (body : gmap string BodyValue) (r : Rule) (d : MentalHealthForm).

Lemma isInt_integerWithin r (v : BodyValue) :
  isInt (ruleMin r) (ruleMax r) (Some v) = true <-> integerWithin r v.
Proof.
  unfold isInt, integerWithin. destruct (textInt (Some v)) as [z |].
  - rewrite andb_true_iff, !Z.leb_le. reflexivity.
  - split; [discriminate | contradiction].
Qed.

Lemma isInt_false r (v : BodyValue) :
  isInt (ruleMin r) (ruleMax r) (Some v) = false <-> ¬ integerWithin r v.
Proof. rewrite <- isInt_integerWithin. symmetry. apply not_true_iff_false. Qed.

Lemma failing_elements r (elements : list BodyValue) :
  length (filter (fun value => isInt (ruleMin r) (ruleMax r) value = false)
            (Some <$> elements))
  = length (filter (fun e => ¬ integerWithin r e) elements).
Proof.
  induction elements as [| e elements IH]; [reflexivity |].
  rewrite fmap_cons, !filter_cons.
  destruct (decide (isInt (ruleMin r) (ruleMax r) (Some e) = false)) as [Hf | Hf];
    destruct (decide (¬ integerWithin r e)) as [Hw | Hw]; cbn [length];
    rewrite ?IH; try reflexivity; exfalso.
  - by apply Hw, isInt_false.
  - by apply Hf, isInt_false.
Qed.

Lemma const_fmap_replicate {A B} (b : B) (l : list A) :
  (fun _ => b) <$> l = replicate (length l) b.
Proof. induction l as [| a l IH]; [reflexivity |]. cbn. by rewrite <- IH. Qed.

(** One chain adds one entry for a missing field and one for each
    offending value of a present one. *)
Lemma runRule_entries body r :
  runRule body r = replicate (entries body r) (errorOf r).
Proof.
  unfold runRule, entries, offences, checkedValues.
  rewrite const_fmap_replicate. f_equal.
  destruct (body !! ruleField r) as [[z | | elements] |].
  - rewrite filter_cons, filter_nil.
    destruct (decide (isInt (ruleMin r) (ruleMax r) (Some (VInt z)) = false)) as [Hf | Hf];
      destruct (decide (integerWithin r (VInt z))) as [Hw | Hw];
      try reflexivity; exfalso.
    + by apply (proj1 (isInt_false r (VInt z))).
    + by apply Hf, isInt_false.
  - reflexivity.
  - apply failing_elements.
  - reflexivity.
Qed.

Lemma Exists_filter_length {A} (P : A -> Prop) `{!forall a, Decision (P a)}
    (l : list A) :
  Exists P l <-> length (filter P l) <> 0%nat.
Proof.
  induction l as [| a l IH].
  - rewrite Exists_nil. cbn. split; [contradiction | congruence].
  - rewrite Exists_cons, filter_cons. destruct (decide (P a)) as [Ha | Ha]; cbn.
    + split; [discriminate | by left].
    + rewrite IH. split; [by intros [? | ?] | by right].
Qed.

Lemma violated_entries body r : violated body r <-> entries body r <> 0%nat.
Proof.
  unfold violated, entries, offences.
  destruct (body !! ruleField r) as [[z | | elements] |].
  - destruct (decide (integerWithin r (VInt z))); cbn; split; try done.
  - cbn. split; [discriminate | by intros _ H].
  - apply Exists_filter_length.
  - split; done.
Qed.

Lemma validationResult_entries body :
  validationResult body =
  mjoin ((fun r => replicate (entries body r) (errorOf r)) <$> assessmentValidation).
Proof.
  unfold validationResult. f_equal. apply list_fmap_ext.
  intros i r _. apply runRule_entries.
Qed.

Lemma mjoin_replicate_nil {A} (count : A -> nat) (entry : A -> ValidationError)
    (l : list A) :
  mjoin ((fun a => replicate (count a) (entry a)) <$> l) = [] <->
  Forall (fun a => count a = 0%nat) l.
Proof.
  induction l as [| a l IH]; [by split |].
  rewrite fmap_cons, Forall_cons. cbn [mjoin list_join].
  destruct (count a); cbn.
  - rewrite IH. split; [by split | by intros [_ ?]].
  - split; [discriminate | by intros [? _]].
Qed.

(** The validator accepts exactly the bodies without a violated field. *)
Lemma validationResult_nil body :
  validationResult body = [] <->
  Forall (fun r => ¬ violated body r) assessmentValidation.
Proof.
  rewrite validationResult_entries, mjoin_replicate_nil.
  apply Forall_proper; [| reflexivity].
  intros r. rewrite violated_entries. lia.
Qed.


(** The body of a posted questionnaire holds each field under its name. *)
Lemma ofForm_holds d : holdsForm (ofForm d) d.
Proof. destruct d. vm_compute. repeat split. Qed.

Lemma holdsForm_toForm body d : holdsForm body d -> toForm body = d.
Proof.
  intros (Esl & Ean & Est & Efi & Eso & Ewo & Eph & Esu & Emo & Esc).
  unfold toForm, numberOf.
  rewrite Esl, Ean, Est, Efi, Eso, Ewo, Eph, Esu, Emo, Esc. by destruct d.
Qed.

Lemma holdsForm_castForm body d : holdsForm body d -> castForm body = Some d.
Proof.
  intros H. pose proof (holdsForm_toForm _ _ H) as Eform.
  destruct H as (Esl & Ean & Est & Efi & Eso & Ewo & Eph & Esu & Emo & Esc).
  unfold castForm, assessmentValidation.
  cbn [fmap list_fmap ruleField forallb].
  rewrite Eform, Esl, Ean, Est, Efi, Eso, Ewo, Eph, Esu, Emo, Esc.
  reflexivity.
Qed.

Lemma castNumber_Some (v : option BodyValue) :
  bool_decide (is_Some (castNumber v)) = true -> exists z, v = Some (VInt z).
Proof.
  intros H%bool_decide_eq_true. destruct v as [[z | | elements] |];
    try (by destruct H). by exists z.
Qed.

(** Only a body of ten single integers casts. *)
Lemma castForm_holds body d : castForm body = Some d -> holdsForm body d.
Proof.
  unfold castForm, assessmentValidation.
  cbn [fmap list_fmap ruleField forallb].
  destruct (bool_decide _ && _) eqn:E; [| discriminate].
  intros [= <-].
  repeat (apply andb_true_iff in E as [?%castNumber_Some E]).
  repeat match goal with H : exists _, _ |- _ => destruct H as [? ?] end.
  unfold holdsForm, toForm, numberOf.
  cbn [sleepHours anxietyLevel stressFrequency financialStress socialSupport
       workLifeBalance physicalActivity substanceUse moodChanges
       suicidalThoughts].
  repeat match goal with
         | H : ?b !! ?k = Some _ |- _ => rewrite H; clear H
         end.
  repeat split.
Qed.

(** On a body of ten single integers the validator decides the ranges. *)
Lemma holdsForm_validationResult body d :
  holdsForm body d -> (validationResult body = [] <-> validForm d).
Proof.
  intros (Esl & Ean & Est & Efi & Eso & Ewo & Eph & Esu & Emo & Esc).
  rewrite validationResult_nil. unfold assessmentValidation, validForm.
  rewrite !Forall_cons, Forall_nil. unfold violated, integerWithin.
  cbn [ruleField ruleMin ruleMax].
  rewrite Esl, Ean, Est, Efi, Eso, Ewo, Eph, Esu, Emo, Esc.
  cbn [textInt]. split.
  - intros (? & ? & ? & ? & ? & ? & ? & ? & ? & ? & _).
    repeat split; lia.
  - intros (? & ? & ? & ? & ? & ? & ? & ? & ? & ?).
    repeat split; lia.
Qed.

(** On such a body, JavaScript's coercions do nothing, and the engine sees
    the ten numbers. *)
Lemma holdsForm_fallbackPrediction body d (now : Z) :
  holdsForm body d ->
  fallbackPrediction body now = generateFallbackPrediction d now.
Proof.
  intros (Esl & Ean & Est & Efi & Eso & Ewo & Eph & Esu & Emo & Esc).
  unfold fallbackPrediction, generateFallbackPrediction.
  assert (E : riskScoreOf body = Some (riskScore d)).
  { unfold riskScoreOf, riskScore, fieldNumber. cbv zeta.
    rewrite Esl, Ean, Est, Efi, Eso, Ewo, Eph, Esu, Emo, Esc.
    cbn [joinedInt lessThan greaterThan].
    destruct (sleepHours d <? 6); [reflexivity |].
    destruct (sleepHours d <? 7); [reflexivity |].
    destruct (sleepHours d >? 9); reflexivity. }
  by rewrite E.
Qed.

Lemma formDataOk_valid d : validForm d -> formDataOk d = true.
Proof.
  intros (Hsl & Han & Hst & Hfi & Hso & Hwo & Hph & Hsu & Hmo & Hsc).
  unfold formDataOk. cbn [forallb getField fieldMin fieldMax].
  repeat (apply andb_true_iff; split); lia.
Qed.

(** Behind a passed validation, a body that casts gives ten integers
    within their ranges. *)
Lemma castForm_formDataOk body d :
  validationResult body = [] -> castForm body = Some d -> formDataOk d = true.
Proof.
  intros Hvalid Hcast. apply formDataOk_valid.
  by apply (holdsForm_validationResult body d); [apply castForm_holds |].
Qed.

End Validator.
(** * Properties of the submit handler *)

Section Submit.

Implicit Types (w : World) (req : SubmitRequest) (s : Server).
Implicit Types (d : MentalHealthForm) (data : Wire.t).

(** The fallback object passes the schema of the persisted prediction. *)
Lemma fallback_wellShaped d (now : Z) :
  wellShaped (assessmentData (generateFallbackPrediction d now)) = true.
Proof.
  unfold wellShaped, generateFallbackPrediction.
  destruct (classify_spec (riskScore d) now) as [[H E] | [(H1 & H2 & E) | [H E]]];
    rewrite E; reflexivity.
Qed.

Lemma castOk_withDefaults (now : Z) data :
  castOk (Wire.recommendations (withDefaults now data))
    = castOk (Wire.recommendations data) /\
  castOk (Wire.timestamp (withDefaults now data)) = castOk (Wire.timestamp data).
Proof.
  unfold withDefaults. cbn [Wire.recommendations Wire.timestamp].
  by destruct (Wire.recommendations data), (Wire.timestamp data).
Qed.

(** The schema on a document given by its parts. *)
Lemma schemaOk_parts (u : N) d (p : Wire.t) (ip agent : string) (t : Z) :
  schemaOk (Submission.mk u d p ip agent t) =
  formDataOk d && wellShaped p
  && castOk (Wire.recommendations p) && castOk (Wire.timestamp p).
Proof.
  unfold schemaOk, wellShaped. cbn [Submission.formData Submission.prediction].
  by destruct (formDataOk d), (enumOk (Wire.prediction p)).
Qed.

(** The document Mongoose builds from the candidate of a request. *)
Lemma newSubmission_candidate w req data :
  newSubmission (clockAtSave w) (candidate req data) =
  match castForm (reqBody req) with
  | Some _ => Some (remoteDocument w req data)
  | None => None
  end.
Proof.
  unfold newSubmission, candidate, remoteDocument, castForm.
  cbn [Candidate.formData Candidate.userId Candidate.prediction
       Candidate.ipAddress Candidate.userAgent].
  by destruct (forallb _ _).
Qed.

(** The save of a validated request, decided by [saveAccepts]. *)
Lemma schemaOk_remoteDocument w req data :
  validationResult (reqBody req) = [] ->
  match castForm (reqBody req) with
  | Some _ => schemaOk (remoteDocument w req data)
  | None => false
  end = saveAccepts (reqBody req) data.
Proof.
  intros Hvalid. unfold saveAccepts.
  destruct (castForm (reqBody req)) as [d |] eqn:Ecast; [| reflexivity].
  unfold remoteDocument. rewrite schemaOk_parts.
  destruct (castOk_withDefaults (clockAtSave w) data) as [-> ->].
  replace (toForm (reqBody req)) with d
    by (symmetry; by apply holdsForm_toForm, castForm_holds).
  rewrite (castForm_formDataOk _ _ Hvalid Ecast).
  reflexivity.
Qed.

Lemma axiosRejects_status (status : Z) data :
  axiosRejects (Answered status data) ->
  (200 <=? status) && (status <? 300) = false.
Proof.
  cbn. intros H. apply andb_false_iff.
  destruct (Z.leb_spec 200 status); [| by left].
  destruct (Z.ltb_spec status 300); [| by right].
  exfalso. apply H. lia.
Qed.

(** A rejected body: answered at once, nothing else done. *)
Lemma submit_rejected w req s :
  validationResult (reqBody req) <> [] ->
  submit w req s = (ValidationFailed (validationResult (reqBody req)), s).
Proof.
  intros Hne. unfold submit, tryCatch, submitBody.
  destruct (validationResult (reqBody req)) as [| e errors]; [done |].
  reflexivity.
Qed.

(** The save of the candidate of a validated request. *)
Lemma save_candidate w req data s :
  validationResult (reqBody req) = [] ->
  save w (candidate req data) s =
    if saveAccepts (reqBody req) data then
      if saveAvailable w then
        (Returned tt,
         {| submissions := submissions s ++ [remoteDocument w req data];
            assessmentCount := assessmentCount s;
            mlRequests := mlRequests s;
            consoleErrors := consoleErrors s |})
      else (Thrown "database unavailable", s)
    else (Thrown "Submission validation failed", s).
Proof.
  intros Hvalid. unfold save. rewrite newSubmission_candidate.
  rewrite <- (schemaOk_remoteDocument w req data Hvalid).
  destruct (castForm (reqBody req)); [| reflexivity].
  destruct (schemaOk (remoteDocument w req data)); cbn [negb]; [| reflexivity].
  by destruct (saveAvailable w).
Qed.

(** The handler behind the validation, from the prediction on: the save,
    the increment and the answer, or the outer [catch]. *)
Lemma submit_conclusion w req data (s1 : Server) :
  validationResult (reqBody req) = [] ->
  match
    tryCatch
      (bind (save w (candidate req data))
         (fun _ => bind (incAssessmentCount w (reqUser req))
                     (fun _ => ret (SubmitOk data))))
      (fun error =>
         bind (consoleError ("Assessment submission error: " ++ error)%string)
           (fun _ => ret (ServerError "Server error during assessment submission")))
      s1
  with
  | (Returned r, s') => (r, s')
  | (Thrown _, s') => (ServerError "Internal server error", s')
  end =
  saveAndCount w req data s1.
Proof.
  intros Hvalid. unfold tryCatch, bind.
  rewrite (save_candidate w req data s1 Hvalid).
  unfold incAssessmentCount, consoleError, ret, saveAndCount.
  destruct (saveAccepts (reqBody req) data);
    [destruct (saveAvailable w); [destruct (updateAvailable w) |] |];
    reflexivity.
Qed.

Lemma handled_bind {A} (m : Handler A) (k : A -> Handler Response)
    (handler : string -> Handler Response) s (a : A) (s1 : Server) :
  m s = (Returned a, s1) ->
  tryCatch (bind m k) handler s = tryCatch (k a) handler s1.
Proof. intros E. unfold tryCatch, bind. by rewrite E. Qed.

(** The inner [try]/[catch]: a rejected call is logged and replaced by the
    engine, an answered one is taken as it is. *)
Lemma prediction_fallback w req s :
  axiosRejects (mlReply w (length (mlRequests s))) ->
  exists line,
    tryCatch
      (axiosPost w (features (reqBody req)))
      (fun mlError =>
         bind (consoleError ("ML API error: " ++ mlError)%string)
           (fun _ => ret (assessmentData
                            (fallbackPrediction (reqBody req) (clockAtFallback w)))))
      s
    = (Returned (fallbackData w req), logged line (posted req s)).
Proof.
  intros Hfail. unfold tryCatch, axiosPost, bind, consoleError, ret.
  destruct (mlReply w (length (mlRequests s))) as [| | status data];
    [| | rewrite (axiosRejects_status _ _ Hfail)]; eexists; reflexivity.
Qed.

Lemma prediction_answered w req s (status : Z) data :
  mlReply w (length (mlRequests s)) = Answered status data ->
  200 <= status < 300 ->
  tryCatch
    (axiosPost w (features (reqBody req)))
    (fun mlError =>
       bind (consoleError ("ML API error: " ++ mlError)%string)
         (fun _ => ret (assessmentData
                          (fallbackPrediction (reqBody req) (clockAtFallback w)))))
    s
  = (Returned data, posted req s).
Proof.
  intros Ereply Hstatus. unfold tryCatch, axiosPost. rewrite Ereply.
  replace ((200 <=? status) && (status <? 300)) with true
    by (symmetry; apply andb_true_iff; lia).
  reflexivity.
Qed.

(** The fallback path of a validated request. *)
Lemma submit_fallback w req s :
  validationResult (reqBody req) = [] ->
  axiosRejects (mlReply w (length (mlRequests s))) ->
  exists line,
    submit w req s = saveAndCount w req (fallbackData w req) (logged line (posted req s)).
Proof.
  intros Hvalid Hfail.
  destruct (prediction_fallback w req s Hfail) as [line Estage].
  exists line. unfold submit, submitBody. rewrite Hvalid. cbv zeta.
  rewrite (handled_bind _ _ _ _ _ _ Estage).
  by apply submit_conclusion.
Qed.

(** A success answer is taken as it is; the schema decides at the save. *)
Lemma submit_answered w req s (status : Z) data :
  validationResult (reqBody req) = [] ->
  mlReply w (length (mlRequests s)) = Answered status data ->
  200 <= status < 300 ->
  submit w req s = saveAndCount w req data (posted req s).
Proof.
  intros Hvalid Ereply Hstatus.
  unfold submit, submitBody. rewrite Hvalid. cbv zeta.
  rewrite (handled_bind _ _ _ _ _ _ (prediction_answered w req s status data Ereply Hstatus)).
  by apply submit_conclusion.
Qed.

(** Every validated request ends in [saveAndCount], after one post. *)
Lemma submit_validated w req s :
  validationResult (reqBody req) = [] ->
  exists data (lines : list string),
    submit w req s =
      saveAndCount w req data
        {| submissions := submissions s;
           assessmentCount := assessmentCount s;
           mlRequests := mlRequests s ++ [features (reqBody req)];
           consoleErrors := consoleErrors s ++ lines |}.
Proof.
  intros Hvalid.
  destruct (mlReply w (length (mlRequests s))) as [| | status data] eqn:Ereply.
  - destruct (submit_fallback w req s Hvalid) as [line ->]; [by rewrite Ereply |].
    by exists (fallbackData w req), [line].
  - destruct (submit_fallback w req s Hvalid) as [line ->]; [by rewrite Ereply |].
    by exists (fallbackData w req), [line].
  - destruct (decide (200 <= status < 300)) as [Hstatus | Hstatus].
    + rewrite (submit_answered w req s status data Hvalid Ereply Hstatus).
      exists data, []. unfold posted. by rewrite app_nil_r.
    + destruct (submit_fallback w req s Hvalid) as [line ->]; [by rewrite Ereply |].
      by exists (fallbackData w req), [line].
Qed.

Lemma classify_timestamp (score : Q) (now : Z) : timestamp (classify score now) = now.
Proof. unfold classify. by destruct (Qle_bool score 30), (Qle_bool score 60). Qed.

(** On a body of ten single integers the save accepts the fallback object. *)
Lemma saveAccepts_fallback req d (now : Z) :
  holdsForm (reqBody req) d ->
  saveAccepts (reqBody req) (assessmentData (generateFallbackPrediction d now)) = true.
Proof.
  intros Hbody. unfold saveAccepts.
  rewrite (holdsForm_castForm _ _ Hbody), fallback_wellShaped. reflexivity.
Qed.


(** C3, as the code has it. When the predictor call rejects (timeout,
    connection failure or a status outside 200 to 299) on a validated body
    whose ten fields are single integers, the submit handler posts the ten
    values to the predictor once and no second time, takes the answer of
    the fallback engine on them, and answers the caller exactly as it would
    have, had the predictor answered with that object: with the database at
    work that is the successful answer carrying the fallback assessment,
    which is also what is stored and counted. *)
Theorem predictor_rejection_falls_back w req s d
    (Hbody : holdsForm (reqBody req) d)
    (Hvalid : validationResult (reqBody req) = [])
    (Hfail : axiosRejects (mlReply w (length (mlRequests s)))) :
  let fallback := generateFallbackPrediction d (clockAtFallback w) in
  let data :=
    {| Wire.prediction := Some (prediction fallback);
       Wire.confidence := Some (confidence fallback);
       Wire.recommendations := Cast (recommendations fallback);
       Wire.timestamp := Cast (clockAtFallback w) |} in
  let document :=
    {| Submission.userId := reqUser req;
       Submission.formData := d;
       Submission.prediction := data;
       Submission.ipAddress := reqIp req;
       Submission.userAgent := reqUserAgent req;
       Submission.createdAt := clockAtSave w |} in
  let response := fst (submit w req s) in
  let s' := snd (submit w req s) in
  mlRequests s' =
    mlRequests s ++
    [ [ Some (VInt (sleepHours d)); Some (VInt (anxietyLevel d));
        Some (VInt (stressFrequency d)); Some (VInt (financialStress d));
        Some (VInt (socialSupport d)); Some (VInt (workLifeBalance d));
        Some (VInt (physicalActivity d)); Some (VInt (substanceUse d));
        Some (VInt (moodChanges d)); Some (VInt (suicidalThoughts d)) ] ] /\
  response = fst (submit (answering w (Answered 200 data)) req s) /\
  response = (if saveAvailable w && updateAvailable w
              then SubmitOk data else submissionServerError) /\
  statusCode response = (if saveAvailable w && updateAvailable w then 200 else 500) /\
  submissions s' = (if saveAvailable w
                    then submissions s ++ [document]
                    else submissions s) /\
  assessmentCount s' = (if saveAvailable w && updateAvailable w
                        then alter S (reqUser req) (assessmentCount s)
                        else assessmentCount s).
Proof.
  intros fallback data document response s'. subst response s'.
  assert (Edata : fallbackData w req = data).
  { unfold fallbackData. rewrite (holdsForm_fallbackPrediction _ _ _ Hbody).
    subst data fallback. unfold assessmentData, generateFallbackPrediction.
    by rewrite classify_timestamp. }
  assert (Hacc : saveAccepts (reqBody req) data = true).
  { rewrite <- Edata. unfold fallbackData.
    rewrite (holdsForm_fallbackPrediction _ _ _ Hbody).
    by apply saveAccepts_fallback. }
  assert (Edoc : forall w', clockAtSave w' = clockAtSave w ->
                            remoteDocument w' req data = document).
  { intros w' Eclock. unfold remoteDocument.
    rewrite (holdsForm_toForm _ _ Hbody), Eclock. reflexivity. }
  assert (Efeatures : features (reqBody req) =
            [ Some (VInt (sleepHours d)); Some (VInt (anxietyLevel d));
              Some (VInt (stressFrequency d)); Some (VInt (financialStress d));
              Some (VInt (socialSupport d)); Some (VInt (workLifeBalance d));
              Some (VInt (physicalActivity d)); Some (VInt (substanceUse d));
              Some (VInt (moodChanges d)); Some (VInt (suicidalThoughts d)) ]).
  { destruct Hbody as (Esl & Ean & Est & Efi & Eso & Ewo & Eph & Esu & Emo & Esc).
    unfold features.
    by rewrite Esl, Ean, Est, Efi, Eso, Ewo, Eph, Esu, Emo, Esc. }
  rewrite (submit_answered (answering w (Answered 200 data)) req s 200 data
             Hvalid eq_refl) by lia.
  destruct (submit_fallback w req s Hvalid Hfail) as (line & ->).
  rewrite Edata. unfold saveAndCount. rewrite Hacc, !Edoc by reflexivity.
  cbn [answering saveAvailable updateAvailable].
  rewrite <- Efeatures.
  destruct (saveAvailable w), (updateAvailable w); cbn; auto 10.
Qed.


End Submit.

Lemma predictor_rejection_falls_back_witness :
  holdsForm (reqBody scenarioRequest) scenarioForm /\
  validationResult (reqBody scenarioRequest) = [] /\
  axiosRejects (mlReply (worldWith Timeout) (length (mlRequests emptyServer))) /\
  fst (submit (worldWith Timeout) scenarioRequest emptyServer) =
    SubmitOk
      {| Wire.prediction := Some "High Risk";
         Wire.confidence := Some 0.82%Q;
         Wire.recommendations := Cast recommendationSetC;
         Wire.timestamp := Cast 1700000000000 |} /\
  mlRequests (snd (submit (worldWith Timeout) scenarioRequest emptyServer)) =
    [ [ Some (VInt 5); Some (VInt 8); Some (VInt 7); Some (VInt 6); Some (VInt 3);
        Some (VInt 4); Some (VInt 3); Some (VInt 2); Some (VInt 6); Some (VInt 1) ] ].
Proof.
  assert (Hbody : holdsForm (reqBody scenarioRequest) scenarioForm)
    by apply ofForm_holds.
  assert (Hvalid : validationResult (reqBody scenarioRequest) = [])
    by (vm_compute; reflexivity).
  assert (Hfail : axiosRejects
                    (mlReply (worldWith Timeout) (length (mlRequests emptyServer))))
    by exact I.
  split; [exact Hbody |]. split; [exact Hvalid |]. split; [exact Hfail |].
  pose proof (predictor_rejection_falls_back
                (worldWith Timeout) scenarioRequest emptyServer scenarioForm
                Hbody Hvalid Hfail) as H.
  cbv zeta in H. destruct H as (Hreq & _ & Hresp & _).
  split; [exact Hresp | exact Hreq].
Defined.


(** C3, as the specification states it, fails in two ways.  An answer that
    is not of the expected shape is no failure for the handler: a 200
    answer without classification or confidence is handed to the save,
    where the schema refuses it, and the caller gets the 500 answer.  And a
    rejected call is no success on every validated body: one whose
    [sleepHours] is the array [[5]] passes the validator, the engine
    answers, and the save refuses the array, again with the 500 answer. *)
Lemma predictor_failures_that_end_in_a_server_error :
  (validationResult (reqBody scenarioRequest) = [] /\
   predictorFailed (mlReply (worldWith shapelessAnswer) 0) /\
   saveAvailable (worldWith shapelessAnswer) = true /\
   updateAvailable (worldWith shapelessAnswer) = true /\
   fst (submit (worldWith shapelessAnswer) scenarioRequest emptyServer) =
     ServerError "Server error during assessment submission" /\
   statusCode (fst (submit (worldWith shapelessAnswer) scenarioRequest emptyServer))
     = 500 /\
   submissions (snd (submit (worldWith shapelessAnswer) scenarioRequest emptyServer))
     = []) /\
  (validationResult (reqBody arrayRequest) = [] /\
   predictorFailed (mlReply (worldWith Timeout) 0) /\
   saveAvailable (worldWith Timeout) = true /\
   updateAvailable (worldWith Timeout) = true /\
   fst (submit (worldWith Timeout) arrayRequest emptyServer) =
     ServerError "Server error during assessment submission" /\
   statusCode (fst (submit (worldWith Timeout) arrayRequest emptyServer)) = 500 /\
   submissions (snd (submit (worldWith Timeout) arrayRequest emptyServer)) = []).
Proof.
  split.
  - split; [vm_compute; reflexivity |].
    split; [right; reflexivity |].
    split; [reflexivity |]. split; [reflexivity |].
    split; [vm_compute; reflexivity |].
    split; vm_compute; reflexivity.
  - split; [vm_compute; reflexivity |].
    split; [exact I |].
    split; [reflexivity |]. split; [reflexivity |].
    split; [vm_compute; reflexivity |].
    split; vm_compute; reflexivity.
Qed.

(** * Properties of the history handler *)

Section History.

Implicit Types (w : World) (s : Server) (l : list Submission.t).

#[local] Instance newerFirst_transitive : Transitive newerFirst.
Proof. intros a b c. unfold newerFirst. lia. Qed.

#[local] Instance newerFirst_total : Total newerFirst.
Proof. intros a b. unfold newerFirst. lia. Qed.

Lemma sortedHistory_Permutation (u : N) s :
  sortedHistory u s ≡ₚ ofUser u (submissions s).
Proof. apply merge_sort_Permutation. Qed.

Lemma sortedHistory_sorted (u : N) s : StronglySorted newerFirst (sortedHistory u s).
Proof. apply (StronglySorted_merge_sort newerFirst). Qed.

(** In a sorted list, an earlier position holds the newer submission. *)
Lemma StronglySorted_lookup l (i j : nat) (a b : Submission.t) :
  StronglySorted newerFirst l -> (i < j)%nat ->
  l !! i = Some a -> l !! j = Some b -> newerFirst a b.
Proof.
  intros Hs. revert i j. induction Hs as [| x l Hs IH Hall]; intros i j Hij Ha Hb.
  - by rewrite lookup_nil in Ha.
  - destruct j as [| j]; [lia |]. cbn in Hb.
    destruct i as [| i].
    + cbn in Ha. injection Ha as ->.
      rewrite Forall_forall in Hall. apply Hall.
      by eapply list_elem_of_lookup_2.
    + cbn in Ha. apply (IH i j); [lia | done | done].
Qed.

(** [Math.ceil(total / limit)] for a positive limit: the least number of
    pages of that size that hold [total] items. *)
Lemma mathCeilDiv_spec (t n : Z) :
  0 < n -> (mathCeilDiv t n - 1) * n < t <= mathCeilDiv t n * n.
Proof.
  intros Hn. unfold mathCeilDiv.
  set (x := (inject_Z t / inject_Z n)%Q).
  assert (Hpos : (0 < inject_Z n)%Q) by (change 0%Q with (inject_Z 0); by rewrite <- Zlt_Qlt).
  assert (Hx : (x * inject_Z n == inject_Z t)%Q).
  { subst x. field. intros H. rewrite H in Hpos. by apply Qlt_irrefl in Hpos. }
  split.
  - pose proof (Qceiling_lt x) as H.
    apply (Qmult_lt_compat_r _ _ (inject_Z n) Hpos) in H.
    rewrite Hx, <- inject_Z_mult, <- Zlt_Qlt in H. exact H.
  - pose proof (Qle_ceiling x) as H.
    apply (Qmult_le_compat_r _ _ (inject_Z n)) in H; [| by apply Qlt_le_weak].
    rewrite Hx, <- inject_Z_mult, <- Zle_Qle in H. exact H.
Qed.

(** The handler on a page and a page size that are both positive. *)
Lemma history_page_step w (u : N) (p n : Z) s :
  readAvailable w = true -> 1 <= p -> 1 <= n ->
  history w (pageRequest u p n) s =
    (HistoryOk
       (selectPublic <$>
          take (Z.to_nat n) (drop (Z.to_nat ((p - 1) * n)) (sortedHistory u s)))
       {| page := p; limit := n;
          total := Z.of_nat (length (ofUser u (submissions s)));
          pages := mathCeilDiv (Z.of_nat (length (ofUser u (submissions s)))) n |},
     s).
Proof.
  intros Hread Hp Hn.
  unfold history, historyBody, tryCatch, bind, ret, find, countDocuments, pageRequest.
  assert (Ep : (p =? 0) = false) by (apply Z.eqb_neq; lia).
  assert (En : (n =? 0) = false) by (apply Z.eqb_neq; lia).
  assert (Eskip : ((p - 1) * n <? 0) = false) by (apply Z.ltb_ge; nia).
  cbn [histUser queryPage queryLimit orDefault].
  rewrite Hread, Ep, En, Eskip, En. cbn [negb].
  rewrite Z.abs_eq by lia. reflexivity.
Qed.

(** C9. For a page p and a page size n, both at least 1, over the t stored
    submissions of the user, the history answers with the submissions at
    the positions (p - 1) * n to (p - 1) * n + n - 1 of the user's
    submissions ordered newest first (strictly so when no two were created
    at the same instant), each with its user, its ten answers, its
    prediction and its creation time, and with the metadata page = p,
    limit = n, total = t and pages = ceil(t / n), the least number of pages
    of size n that hold t items.  With 25 stored submissions, page 2 of
    size 10 holds the 11th to the 20th newest and pages is 3. *)
Theorem history_returns_requested_page w (u : N) (p n : Z) s
    (Hread : readAvailable w = true) (Hp : 1 <= p) (Hn : 1 <= n) :
  let own := filter (fun doc => Submission.userId doc = u) (submissions s) in
  let sorted := sortedHistory u s in
  let t := Z.of_nat (length own) in
  let skip := Z.to_nat ((p - 1) * n) in
  (exists data pagination,
     history w (pageRequest u p n) s = (HistoryOk data pagination, s) /\
     (forall i : nat,
        Z.of_nat i < n ->
        match sorted !! (skip + i)%nat with
        | Some doc =>
          exists item,
            data !! i = Some item /\
            itemUserId item = Submission.userId doc /\
            itemFormData item = Submission.formData doc /\
            itemPrediction item = Submission.prediction doc /\
            itemCreatedAt item = Submission.createdAt doc
        | None => data !! i = None
        end) /\
     (forall i : nat, n <= Z.of_nat i -> data !! i = None) /\
     page pagination = p /\ limit pagination = n /\ total pagination = t /\
     (pages pagination - 1) * n < t <= pages pagination * n) /\
  sorted ≡ₚ own /\
  (forall (i j : nat) (a b : Submission.t),
     (i < j)%nat -> sorted !! i = Some a -> sorted !! j = Some b ->
     Submission.createdAt b <= Submission.createdAt a /\
     (NoDup (Submission.createdAt <$> own) ->
      Submission.createdAt b < Submission.createdAt a)) /\
  (length (filter (fun doc => Submission.userId doc = 7%N)
             (submissions twentyFiveServer)) = 25%nat /\
   (Submission.createdAt
      <$> filter (fun doc => Submission.userId doc = 7%N)
            (submissions twentyFiveServer)) = seqZ 1 25 /\
   history w (pageRequest 7 2 10) twentyFiveServer =
     (HistoryOk
        ((fun time =>
            {| itemUserId := 7%N;
               itemFormData :=
                 {| sleepHours := 5; anxietyLevel := 8; stressFrequency := 7;
                    financialStress := 6; socialSupport := 3; workLifeBalance := 4;
                    physicalActivity := 3; substanceUse := 2; moodChanges := 6;
                    suicidalThoughts := 1 |};
               itemPrediction :=
                 {| Wire.prediction := Some "High Risk";
                    Wire.confidence := Some 0.82%Q;
                    Wire.recommendations :=
                      Cast
                        [ "Strongly recommend seeking professional mental health support";
                          "Contact a crisis helpline if experiencing suicidal thoughts";
                          "Reach out to trusted friends, family, or support groups";
                          "Consider medication evaluation with a psychiatrist";
                          "Develop a safety plan with a mental health professional" ];
                    Wire.timestamp := Cast time |};
               itemCreatedAt := time |})
           <$> [15; 14; 13; 12; 11; 10; 9; 8; 7; 6])
        {| page := 2; limit := 10; total := 25; pages := 3 |},
      twentyFiveServer)).
Proof.
  intros own sorted t skip.
  split; [| split; [| split]].
  - eexists; eexists. split; [by apply history_page_step |].
    split; [| split; [| split; [| split; [| split]]]]; try reflexivity.
    + intros i Hi. rewrite list_lookup_fmap, lookup_take_lt, lookup_drop by lia.
      subst sorted skip.
      destruct (sortedHistory u s !! (Z.to_nat ((p - 1) * n) + i)%nat) as [doc |];
        [| reflexivity].
      exists (selectPublic doc). by repeat split.
    + intros i Hi. rewrite list_lookup_fmap. by rewrite lookup_take_ge by lia.
    + cbn [pages]. apply mathCeilDiv_spec. lia.
  - apply sortedHistory_Permutation.
  - intros i j a b Hij Ha Hb.
    pose proof (StronglySorted_lookup _ i j a b (sortedHistory_sorted u s) Hij Ha Hb)
      as Hle.
    unfold newerFirst in Hle. split; [exact Hle |].
    intros Hnodup.
    assert (Hnodup' : NoDup (Submission.createdAt <$> sorted)).
    { subst sorted. by rewrite sortedHistory_Permutation. }
    destruct (decide (Submission.createdAt a = Submission.createdAt b)) as [Heq |]; [| lia].
    exfalso.
    assert (i = j); [| lia].
    apply (NoDup_lookup _ i j (Submission.createdAt a) Hnodup').
    + by rewrite list_lookup_fmap, Ha.
    + by rewrite list_lookup_fmap, Hb, Heq.
  - split; [vm_compute; reflexivity |]. split; [vm_compute; reflexivity |].
    rewrite (history_page_step w 7 2 10 twentyFiveServer Hread) by lia.
    vm_compute. reflexivity.
Qed.

End History.

Lemma history_returns_requested_page_witness :
  (readAvailable (worldWith Timeout) = true /\ 1 <= 2 /\ 1 <= 10) /\
  exists data pagination,
    history (worldWith Timeout) (pageRequest 7 2 10) twentyFiveServer =
      (HistoryOk data pagination, twentyFiveServer) /\
    itemCreatedAt <$> data = [15; 14; 13; 12; 11; 10; 9; 8; 7; 6] /\
    itemUserId <$> data = replicate 10 7%N /\
    pagination = {| page := 2; limit := 10; total := 25; pages := 3 |}.
Proof.
  assert (Hread : readAvailable (worldWith Timeout) = true) by reflexivity.
  assert (Hp : 1 <= 2) by lia.
  assert (Hn : 1 <= 10) by lia.
  split; [by repeat split |].
  pose proof (history_returns_requested_page
                (worldWith Timeout) 7 2 10 twentyFiveServer Hread Hp Hn) as H.
  cbv zeta in H.
  destruct H as (_ & _ & _ & _ & _ & Hresp).
  eexists; eexists. split; [exact Hresp |]. by repeat split.
Defined.

(** * Properties of the dashboard trend *)

Section Trend.

Import Dashboard.

Implicit Types (h : list Submission.t) (a b : Submission.t).

(** C6. With at least two submissions, newest first, the trend compares
    the ordinals (Low Risk 1, Medium Risk 2, High Risk 3) of the two
    newest classifications: improving when the newest is strictly below
    the one before, worsening when strictly above, stable when equal.
    With fewer than two submissions there is no trend. *)
Theorem trend_compares_two_newest h :
  (riskLevels LowRisk = 1 /\ riskLevels MediumRisk = 2 /\ riskLevels HighRisk = 3) /\
  (((length h < 2)%nat /\ getRiskTrend h = None) \/
   (exists latest previous,
      (2 <= length h)%nat /\
      h !! 0%nat = Some latest /\ h !! 1%nat = Some previous /\
      ((riskLevels (levelOf latest) < riskLevels (levelOf previous) /\
        getRiskTrend h = Some "improving") \/
       (riskLevels (levelOf latest) > riskLevels (levelOf previous) /\
        getRiskTrend h = Some "worsening") \/
       (riskLevels (levelOf latest) = riskLevels (levelOf previous) /\
        getRiskTrend h = Some "stable")))).
Proof.
  split; [by repeat split |].
  destruct h as [| latest [| previous rest]].
  - left. split; [cbn; lia | reflexivity].
  - left. split; [cbn; lia | reflexivity].
  - right. exists latest, previous.
    split; [cbn; lia |]. split; [reflexivity |]. split; [reflexivity |].
    unfold getRiskTrend, levelOf. cbn [length Nat.ltb Nat.leb lookup list_lookup].
    rewrite Z.gtb_ltb.
    destruct (Z.ltb_spec (riskLevels (prediction (Submission.prediction latest)))
                         (riskLevels (prediction (Submission.prediction previous))));
      [by left |].
    destruct (Z.ltb_spec (riskLevels (prediction (Submission.prediction previous)))
                         (riskLevels (prediction (Submission.prediction latest))));
      [right; left; split; [lia | reflexivity] |].
    right; right. split; [lia | reflexivity].
Qed.

(** C7, as the code has it. Newest first, the classifications Low Risk
    then Medium Risk give improving (the newest ordinal, 1, is below the
    one before, 2), High Risk then Medium Risk give worsening, Medium Risk
    twice gives stable, and a single submission gives no trend. *)
Theorem trend_examples a b :
  getRiskTrend [withLevel LowRisk a; withLevel MediumRisk b] = Some "improving" /\
  getRiskTrend [withLevel HighRisk a; withLevel MediumRisk b] = Some "worsening" /\
  getRiskTrend [withLevel MediumRisk a; withLevel MediumRisk b] = Some "stable" /\
  getRiskTrend [a] = None /\
  classifications [withLevel LowRisk a; withLevel MediumRisk b] = [LowRisk; MediumRisk] /\
  classifications [withLevel HighRisk a; withLevel MediumRisk b] = [HighRisk; MediumRisk] /\
  classifications [withLevel MediumRisk a; withLevel MediumRisk b] = [MediumRisk; MediumRisk].
Proof. repeat (split; [reflexivity |]). reflexivity. Qed.

(** C7, as the specification states it, fails on its first two examples:
    with the newest submission first, Low Risk after Medium Risk is not
    worsening and High Risk after Medium Risk is not improving. *)
Lemma trend_examples_of_the_specification_fail :
  classifications [withLevel LowRisk blankSubmission; withLevel MediumRisk blankSubmission]
    = [LowRisk; MediumRisk] /\
  getRiskTrend [withLevel LowRisk blankSubmission; withLevel MediumRisk blankSubmission]
    <> Some "worsening" /\
  classifications [withLevel HighRisk blankSubmission; withLevel MediumRisk blankSubmission]
    = [HighRisk; MediumRisk] /\
  getRiskTrend [withLevel HighRisk blankSubmission; withLevel MediumRisk blankSubmission]
    <> Some "improving".
Proof.
  split; [reflexivity |]. split; [discriminate |].
  split; [reflexivity |]. discriminate.
Qed.

End Trend.

(** * Further properties of the scoring engine *)

Section ScoringMore.

Local Open Scope Q_scope.

(** X1. For a valid questionnaire the fallback score is a whole number of
    half points: k / 2 for an integer k between 0 and 390. *)
Theorem fallback_score_is_a_half_integer (d : MentalHealthForm)
    (Hvalid : validForm d) :
  exists k : Z, (0 <= k <= 390)%Z /\ riskScore d == inject_Z k / 2.
Proof. by apply riskScore_half_integer. Qed.

(** A higher score never gives a lower classification. *)
Lemma classify_monotone (q q' : Q) (now now' : Z) :
  q <= q' ->
  prediction (classify q now) = "Low Risk" \/
  prediction (classify q' now') = "High Risk" \/
  prediction (classify q now) = prediction (classify q' now').
Proof.
  intros Hle.
  destruct (classify_spec q now) as [[H E] | [(H1 & H2 & E) | [H E]]];
    destruct (classify_spec q' now') as [[H' E'] | [(H1' & H2' & E') | [H' E']]];
    rewrite E, E'; cbn [prediction]; auto; exfalso; lra.
Qed.

(** X2. With the other nine answers fixed, a larger value of a risk field
    never gives a lower classification (Low Risk below Medium Risk below
    High Risk), and a larger value of a protective field never gives a
    higher one. *)
Theorem classification_monotone_in_each_field
    (d : MentalHealthForm) (f : Field) (v v' : Z) (now : Z) (Hle : (v <= v')%Z) :
  let lower := prediction (generateFallbackPrediction (setField f v d) now) in
  let upper := prediction (generateFallbackPrediction (setField f v' d) now) in
  (f ∈ riskFields ->
   lower = "Low Risk" \/ upper = "High Risk" \/ lower = upper) /\
  (f ∈ protectiveFields ->
   upper = "Low Risk" \/ lower = "High Risk" \/ upper = lower).
Proof.
  intros lower upper. subst lower upper. unfold generateFallbackPrediction.
  split; intros Hin; apply classify_monotone.
  - by apply riskScore_rises.
  - by apply riskScore_falls.
Qed.

(** Both scores in the worded form, on the ten components. *)
Ltac worded_scores :=
  rewrite ?riskScore_specScore;
  unfold specScore, linearTerm, invertedTerm, calmestForm;
  cbn [setField sleepHours anxietyLevel stressFrequency financialStress
       socialSupport workLifeBalance physicalActivity substanceUse
       moodChanges suicidalThoughts];
  change (sleepTerm 8) with 0;
  change (inject_Z 1) with 1; change (inject_Z 10) with 10.

(** X3. One answer alone moves the score by at most 45 points (the span of
    suicidalThoughts), whatever the other nine valid answers are; so with
    every other answer at its most favourable, no single answer, not even
    suicidalThoughts at 10, gives High Risk. *)
Theorem one_answer_moves_score_by_at_most_45
    (d : MentalHealthForm) (f : Field) (v : Z) (now : Z)
    (Hvalid : validForm d) (Hv : (fieldMin f <= v <= fieldMax f)%Z) :
  (riskScore d - 45 <= riskScore (setField f v d) /\
   riskScore (setField f v d) <= riskScore d + 45) /\
  riskScore (setField f v calmestForm) <= 45 /\
  prediction (generateFallbackPrediction (setField f v calmestForm) now) <> "High Risk".
Proof.
  assert (Hcalm : riskScore (setField f v calmestForm) <= 45).
  { pose proof (sleepTerm_bounds v) as [? ?].
    destruct f; cbn [fieldMin fieldMax] in Hv; worded_scores;
      try (apply inject_bounds in Hv as [? ?]); lra. }
  split; [| split; [exact Hcalm |]].
  - destruct Hvalid as (Hsl & Han & Hst & Hfi & Hso & Hwo & Hph & Hsu & Hmo & Hsc).
    destruct d as [sl an st fi so wo ph su mo sc].
    cbn [sleepHours anxietyLevel stressFrequency financialStress socialSupport
         workLifeBalance physicalActivity substanceUse moodChanges
         suicidalThoughts] in *.
    apply inject_bounds in Han, Hst, Hfi, Hso, Hwo, Hph, Hsu, Hmo, Hsc.
    destruct Han, Hst, Hfi, Hso, Hwo, Hph, Hsu, Hmo, Hsc.
    pose proof (sleepTerm_bounds sl) as [? ?].
    pose proof (sleepTerm_bounds v) as [? ?].
    destruct f; cbn [fieldMin fieldMax] in Hv; worded_scores;
      try (apply inject_bounds in Hv as [? ?]); split; lra.
  - unfold generateFallbackPrediction.
    destruct (classify_spec (riskScore (setField f v calmestForm)) now)
      as [[H E] | [(H1 & H2 & E) | [H E]]]; rewrite E; cbn [prediction];
      [discriminate | discriminate | exfalso; lra].
Qed.

End ScoringMore.

Lemma fallback_score_is_a_half_integer_witness :
  validForm scenarioForm /\
  exists k : Z, (0 <= k <= 390)%Z /\ (riskScore scenarioForm == inject_Z k / 2)%Q.
Proof.
  assert (Hv : validForm scenarioForm) by (unfold validForm; cbn; lia).
  split; [exact Hv |].
  exact (fallback_score_is_a_half_integer scenarioForm Hv).
Defined.

Lemma classification_monotone_in_each_field_witness :
  (8 <= 10)%Z /\ FSuicidalThoughts ∈ riskFields /\
  (prediction (generateFallbackPrediction (setField FSuicidalThoughts 8 calmestForm) 0)
     = "Low Risk" \/
   prediction (generateFallbackPrediction (setField FSuicidalThoughts 10 calmestForm) 0)
     = "High Risk" \/
   prediction (generateFallbackPrediction (setField FSuicidalThoughts 8 calmestForm) 0)
     = prediction (generateFallbackPrediction (setField FSuicidalThoughts 10 calmestForm) 0)).
Proof.
  assert (Hle : (8 <= 10)%Z) by lia.
  assert (Hin : FSuicidalThoughts ∈ riskFields) by (apply elem_of_cons; by left).
  split; [exact Hle |]. split; [exact Hin |].
  exact (proj1 (classification_monotone_in_each_field
                  calmestForm FSuicidalThoughts 8 10 0 Hle) Hin).
Defined.

Lemma one_answer_moves_score_by_at_most_45_witness :
  validForm scenarioForm /\
  (fieldMin FSuicidalThoughts <= 10 <= fieldMax FSuicidalThoughts)%Z /\
  (riskScore (setField FSuicidalThoughts 10 scenarioForm) <= riskScore scenarioForm + 45)%Q /\
  prediction (generateFallbackPrediction (setField FSuicidalThoughts 10 calmestForm) 0)
    <> "High Risk".
Proof.
  assert (Hvalid : validForm scenarioForm) by (unfold validForm; cbn; lia).
  assert (Hv : (fieldMin FSuicidalThoughts <= 10 <= fieldMax FSuicidalThoughts)%Z)
    by (cbn; lia).
  split; [exact Hvalid |]. split; [exact Hv |].
  destruct (one_answer_moves_score_by_at_most_45
              scenarioForm FSuicidalThoughts 10 0 Hvalid Hv) as ((_ & Hup) & _ & Hnot).
  split; [exact Hup | exact Hnot].
Defined.

(** * Further properties of the validator *)

Section ValidatorMore.

Implicit Types (body : gmap string BodyValue) (d : MentalHealthForm).

Lemma toForm_ofForm d : toForm (ofForm d) = d.
Proof. apply holdsForm_toForm, ofForm_holds. Qed.

Lemma ofForm_accepted d : validForm d -> validationResult (ofForm d) = [].
Proof. apply (holdsForm_validationResult (ofForm d) d), ofForm_holds. Qed.

(** X4. A questionnaire posted as JSON numbers is read back field for field by
    the handler, and the validator accepts it exactly when it is valid. *)
Theorem posted_form_round_trip d :
  toForm (ofForm d) = d /\
  (validationResult (ofForm d) = [] <-> validForm d) /\
  castForm (ofForm d) = Some d /\
  features (ofForm d) =
    [ Some (VInt (sleepHours d)); Some (VInt (anxietyLevel d));
      Some (VInt (stressFrequency d)); Some (VInt (financialStress d));
      Some (VInt (socialSupport d)); Some (VInt (workLifeBalance d));
      Some (VInt (physicalActivity d)); Some (VInt (substanceUse d));
      Some (VInt (moodChanges d)); Some (VInt (suicidalThoughts d)) ].
Proof.
  split; [apply toForm_ofForm |].
  split; [apply holdsForm_validationResult, ofForm_holds |].
  split; [apply holdsForm_castForm, ofForm_holds |].
  destruct d. vm_compute. reflexivity.
Qed.





(** What the handler reads of a body, it reads under the ten declared
    names. *)
Lemma same_declared_fields body body' :
  (forall name, name ∈ declaredFields -> body' !! name = body !! name) ->
  validationResult body' = validationResult body /\
  toForm body' = toForm body /\
  features body' = features body /\
  castForm body' = castForm body /\
  forall now : Z, fallbackPrediction body' now = fallbackPrediction body now.
Proof.
  intros Hne.
  assert (Hnames : Forall (fun name => body' !! name = body !! name) declaredFields)
    by (apply Forall_forall; exact Hne).
  unfold declaredFields, assessmentValidation in Hnames.
  cbn [fmap list_fmap ruleField] in Hnames.
  repeat match goal with
         | F : Forall _ (_ :: _) |- _ =>
           let E := fresh "E" in apply Forall_cons in F as [E F]; cbn beta in E
         end.
  assert (Eform : toForm body' = toForm body).
  { unfold toForm, numberOf.
    repeat match goal with E : _ !! _ = _ |- _ => rewrite E; clear E end.
    reflexivity. }
  split; [| split; [exact Eform | split; [| split]]].
  - unfold validationResult, assessmentValidation, runRule.
    cbn [fmap list_fmap ruleField ruleMin ruleMax].
    repeat match goal with E : _ !! _ = _ |- _ => rewrite E; clear E end.
    reflexivity.
  - unfold features.
    repeat match goal with E : _ !! _ = _ |- _ => rewrite E; clear E end.
    reflexivity.
  - unfold castForm, assessmentValidation. rewrite Eform.
    cbn [fmap list_fmap ruleField forallb].
    repeat match goal with E : _ !! _ = _ |- _ => rewrite E; clear E end.
    reflexivity.
  - intros now. unfold fallbackPrediction, riskScoreOf, fieldNumber. cbv zeta.
    repeat match goal with E : _ !! _ = _ |- _ => rewrite E; clear E end.
    reflexivity.
Qed.

(** X6. Keys of the body other than the ten declared names are ignored: they
    change neither the verdict of the validator nor the ten numbers the
    handler reads, be it for the predictor, for the engine or for the
    save. *)
Theorem undeclared_keys_are_ignored body (k : string) (v : BodyValue)
    (Hk : k ∉ declaredFields) :
  validationResult (<[k := v]> body) = validationResult body /\
  toForm (<[k := v]> body) = toForm body /\
  features (<[k := v]> body) = features body /\
  castForm (<[k := v]> body) = castForm body /\
  forall now : Z,
    fallbackPrediction (<[k := v]> body) now = fallbackPrediction body now.
Proof.
  apply same_declared_fields.
  intros name Hin. apply lookup_insert_ne. intros ->. by apply Hk.
Qed.

End ValidatorMore.

Lemma undeclared_keys_are_ignored_witness :
  ("comment" ∉ declaredFields) /\
  validationResult (<["comment" := VOther]> (ofForm scenarioForm)) = [] /\
  toForm (<["comment" := VOther]> (ofForm scenarioForm)) = scenarioForm.
Proof.
  assert (Hk : "comment" ∉ declaredFields).
  { intros Hin. vm_compute in Hin.
    repeat (apply elem_of_cons in Hin as [Hin | Hin]; [discriminate |]).
    by apply elem_of_nil in Hin. }
  split; [exact Hk |].
  destruct (undeclared_keys_are_ignored (ofForm scenarioForm) "comment" VOther Hk)
    as (Hresult & Hform & _).
  rewrite Hresult, Hform.
  split; [| apply toForm_ofForm].
  apply ofForm_accepted. unfold validForm. cbn. lia.
Defined.
(** * Further properties of the submit handler *)

Section SubmitMore.

Implicit Types (w : World) (req : SubmitRequest) (s : Server).

Lemma saveAccepts_schemaOk w req (data : Wire.t) :
  validationResult (reqBody req) = [] ->
  saveAccepts (reqBody req) data = true ->
  schemaOk (remoteDocument w req data) = true /\
  holdsForm (reqBody req) (toForm (reqBody req)) /\
  validForm (toForm (reqBody req)).
Proof.
  intros Hvalid Hacc.
  pose proof (schemaOk_remoteDocument w req data Hvalid) as E.
  rewrite Hacc in E.
  destruct (castForm (reqBody req)) as [d |] eqn:Ecast; [| discriminate].
  split; [exact E |].
  pose proof (castForm_holds _ _ Ecast) as Hholds.
  rewrite (holdsForm_toForm _ _ Hholds).
  split; [exact Hholds |].
  by apply (holdsForm_validationResult (reqBody req) d).
Qed.

(** X7. The handler on a validated body whose predictor call is answered with
    a success status: the answer is used as it is, whatever the engine
    would have said, and the save decides: it takes the document when the
    ten fields of the body are single integers and the answer has one of
    the three classifications, a confidence within 0 and 1, and
    recommendations and a timestamp that, if given, cast to texts and to a
    date. *)
Theorem remote_answer_is_used_as_received w req s (status : Z) (data : Wire.t)
    (Hvalid : validationResult (reqBody req) = [])
    (Hreply : mlReply w (length (mlRequests s)) = Answered status data)
    (Hstatus : 200 <= status < 300) :
  let response := fst (submit w req s) in
  let s' := snd (submit w req s) in
  let accepted :=
    bool_decide (is_Some (castForm (reqBody req)))
    && enumOk (Wire.prediction data)
    && confidenceOk (Wire.confidence data)
    && match Wire.recommendations data with Refused => false | _ => true end
    && match Wire.timestamp data with Refused => false | _ => true end in
  response = (if accepted && saveAvailable w && updateAvailable w
              then SubmitOk data else submissionServerError) /\
  submissions s' = (if accepted && saveAvailable w
                    then submissions s ++ [remoteDocument w req data]
                    else submissions s) /\
  assessmentCount s' = (if accepted && saveAvailable w && updateAvailable w
                        then alter S (reqUser req) (assessmentCount s)
                        else assessmentCount s) /\
  mlRequests s' = mlRequests s ++ [features (reqBody req)] /\
  length (consoleErrors s') =
    (if accepted && saveAvailable w && updateAvailable w
     then length (consoleErrors s) else S (length (consoleErrors s))) /\
  (accepted = true ->
   holdsForm (reqBody req) (Submission.formData (remoteDocument w req data)) /\
   validForm (Submission.formData (remoteDocument w req data)) /\
   Wire.prediction (Submission.prediction (remoteDocument w req data))
     = Wire.prediction data /\
   Wire.confidence (Submission.prediction (remoteDocument w req data))
     = Wire.confidence data /\
   Wire.recommendations (Submission.prediction (remoteDocument w req data))
     = match Wire.recommendations data with
       | Absent => Cast []
       | received => received
       end /\
   Wire.timestamp (Submission.prediction (remoteDocument w req data))
     = match Wire.timestamp data with
       | Absent => Cast (clockAtSave w)
       | received => received
       end).
Proof.
  intros response s' accepted. subst response s'.
  assert (Eacc : accepted = saveAccepts (reqBody req) data).
  { subst accepted. unfold saveAccepts, wellShaped, castOk.
    by destruct (bool_decide _), (enumOk _). }
  rewrite Eacc. clear accepted Eacc.
  rewrite (submit_answered w req s status data Hvalid Hreply Hstatus).
  unfold saveAndCount, posted.
  split; [| split; [| split; [| split; [| split]]]].
  - by destruct (saveAccepts _ _), (saveAvailable w), (updateAvailable w).
  - by destruct (saveAccepts _ _), (saveAvailable w), (updateAvailable w).
  - by destruct (saveAccepts _ _), (saveAvailable w), (updateAvailable w).
  - by destruct (saveAccepts _ _), (saveAvailable w), (updateAvailable w).
  - destruct (saveAccepts _ _), (saveAvailable w), (updateAvailable w);
      cbn [andb snd consoleErrors]; rewrite ?length_app; cbn [length]; lia.
  - intros Hacc.
    destruct (saveAccepts_schemaOk w req data Hvalid Hacc) as (_ & Hholds & Hform).
    split; [exact Hholds |]. split; [exact Hform |]. by repeat split.
Qed.

(** What one submit request does to the store, in every world. *)
Lemma submit_store_step w req s :
  (fst (submit w req s) = ValidationFailed (validationResult (reqBody req))
   /\ validationResult (reqBody req) <> [] /\ snd (submit w req s) = s) \/
  (validationResult (reqBody req) = [] /\
   exists (prediction : Wire.t) (lines : list string),
     ((isSubmitOk (fst (submit w req s)) = false /\
       submissions (snd (submit w req s)) = submissions s /\
       assessmentCount (snd (submit w req s)) = assessmentCount s) \/
      (isSubmitOk (fst (submit w req s)) = false /\
       schemaOk (remoteDocument w req prediction) = true /\
       submissions (snd (submit w req s)) =
         submissions s ++ [remoteDocument w req prediction] /\
       assessmentCount (snd (submit w req s)) = assessmentCount s) \/
      (fst (submit w req s) = SubmitOk prediction /\
       schemaOk (remoteDocument w req prediction) = true /\
       submissions (snd (submit w req s)) =
         submissions s ++ [remoteDocument w req prediction] /\
       assessmentCount (snd (submit w req s)) =
         alter S (reqUser req) (assessmentCount s))) /\
     mlRequests (snd (submit w req s)) =
       mlRequests s ++ [features (reqBody req)] /\
     consoleErrors (snd (submit w req s)) = consoleErrors s ++ lines).
Proof.
  destruct (validationResult (reqBody req)) as [| e errors] eqn:Evalid.
  - right. split; [reflexivity |].
    destruct (submit_validated w req s Evalid) as (data & lines & ->).
    unfold saveAndCount.
    destruct (saveAccepts (reqBody req) data) eqn:Eacc.
    + destruct (saveAccepts_schemaOk w req data Evalid Eacc) as (Hschema & _).
      destruct (saveAvailable w); [destruct (updateAvailable w) |];
        exists data; eexists;
        cbn [fst snd submissions assessmentCount mlRequests consoleErrors
             isSubmitOk submissionServerError].
      * split; [right; right; by repeat split |].
        split; reflexivity.
      * split; [right; left; by repeat split |].
        split; [reflexivity | by rewrite <- app_assoc].
      * split; [left; by repeat split |].
        split; [reflexivity | by rewrite <- app_assoc].
    + exists data; eexists;
        cbn [fst snd submissions assessmentCount mlRequests consoleErrors
             isSubmitOk submissionServerError].
      split; [left; by repeat split |].
      split; [reflexivity | by rewrite <- app_assoc].
  - left. rewrite (submit_rejected w req s) by (rewrite Evalid; discriminate).
    rewrite Evalid. by repeat split.
Qed.

(** What a submit request appends, it appends for the requester. *)
Lemma submit_appends_for_requester w req s :
  exists appended : list Submission.t,
    submissions (snd (submit w req s)) = submissions s ++ appended /\
    (length appended <= 1)%nat /\
    (if isSubmitOk (fst (submit w req s)) then length appended = 1%nat else True) /\
    Forall (fun doc => Submission.userId doc = reqUser req /\
                       Submission.createdAt doc = clockAtSave w /\
                       schemaOk doc = true) appended.
Proof.
  destruct (submit_store_step w req s)
    as [(-> & _ & ->) | (_ & p & lines & [(Hr & -> & _) | [(Hr & Hok & -> & _)
                                         | (-> & Hok & -> & _)]] & _ & _)].
  - exists []. rewrite app_nil_r. cbn. repeat split; try lia. constructor.
  - rewrite Hr. exists []. rewrite app_nil_r. cbn. repeat split; try lia. constructor.
  - rewrite Hr. exists [remoteDocument w req p]. cbn.
    repeat split; try lia. by repeat constructor.
  - exists [remoteDocument w req p]. cbn.
    repeat split; try lia. by repeat constructor.
Qed.

(** X8. A submit request never changes or removes a stored submission and
    appends at most one, under the id of the requester, created at the
    instant of the save and passing the schema; it raises the counter of
    the requester by one exactly when it answers with success, and it
    touches neither the counter nor the submissions of any other user. *)
Theorem submit_touches_only_the_requester w req s :
  let response := fst (submit w req s) in
  let s' := snd (submit w req s) in
  (exists appended : list Submission.t,
     submissions s' = submissions s ++ appended /\
     (length appended <= 1)%nat /\
     (if isSubmitOk response then length appended = 1%nat else True) /\
     Forall (fun doc => Submission.userId doc = reqUser req /\
                        Submission.createdAt doc = clockAtSave w /\
                        schemaOk doc = true) appended) /\
  assessmentCount s' =
    (if isSubmitOk response
     then alter S (reqUser req) (assessmentCount s) else assessmentCount s) /\
  (forall u : N, u <> reqUser req ->
     assessmentCount s' !! u = assessmentCount s !! u /\
     ofUser u (submissions s') = ofUser u (submissions s)).
Proof.
  intros response s'. subst response s'.
  assert (Hother : forall (u : N) (doc : Submission.t),
            u <> reqUser req -> Submission.userId doc = reqUser req ->
            ofUser u (submissions s ++ [doc]) = ofUser u (submissions s)).
  { intros u doc Hne Hdoc. unfold ofUser.
    rewrite filter_app, filter_cons_False, filter_nil by congruence.
    apply app_nil_r. }
  destruct (submit_store_step w req s)
    as [(-> & _ & ->) | (_ & p & lines & [(Hr & -> & ->) | [(Hr & Hok & -> & ->)
                                         | (-> & Hok & -> & ->)]] & _ & _)].
  - split; [exists []; rewrite app_nil_r; cbn; repeat split; try lia; constructor |].
    split; [reflexivity | by intros u _].
  - rewrite Hr.
    split; [exists []; rewrite app_nil_r; cbn; repeat split; try lia; constructor |].
    split; [reflexivity | by intros u _].
  - rewrite Hr.
    split; [exists [remoteDocument w req p]; cbn;
            repeat split; try lia; by repeat constructor |].
    split; [reflexivity |]. intros u Hne. split; [reflexivity |].
    by apply Hother.
  - cbn [isSubmitOk].
    split; [exists [remoteDocument w req p]; cbn;
            repeat split; try lia; by repeat constructor |].
    split; [reflexivity |]. intros u Hne. split.
    + by apply lookup_alter_ne.
    + by apply Hother.
Qed.

(** X9. Whatever requests are served and whatever the worlds do, every
    submission in the store passes the schema: its ten fields are within
    their ranges, its classification is one of the three and its confidence
    lies within 0 and 1. *)
Theorem store_holds_only_schema_valid_submissions
    (requests : list (World * SubmitRequest)) :
  Forall (fun doc => schemaOk doc = true) (submissions (serve requests emptyServer)).
Proof.
  assert (Hgen : forall s,
            Forall (fun doc => schemaOk doc = true) (submissions s) ->
            Forall (fun doc => schemaOk doc = true) (submissions (serve requests s))).
  { induction requests as [| [w req] requests IH]; intros s Hs; [exact Hs |].
    cbn [serve foldl fst snd]. apply IH.
    destruct (submit_appends_for_requester w req s)
      as (appended & -> & _ & _ & Happ).
    apply Forall_app. split; [exact Hs |].
    eapply Forall_impl; [exact Happ |]. by intros doc (_ & _ & ?). }
  apply Hgen. constructor.
Qed.

(** X10. The predictor is contacted once for a validated body and not at all
    for a rejected one; the request carries the ten values of the body, as
    the body holds them, in the order of the declared fields. *)
Theorem predictor_is_contacted_once_per_valid_request w req s :
  mlRequests (snd (submit w req s)) =
    mlRequests s ++
    match validationResult (reqBody req) with
    | [] => [(fun name => reqBody req !! name) <$> declaredFields]
    | _ :: _ => []
    end.
Proof.
  destruct (submit_store_step w req s)
    as [(_ & Hne & ->) | (Hvalid & p & lines & _ & -> & _)].
  - destruct (validationResult (reqBody req)); [done | by rewrite app_nil_r].
  - rewrite Hvalid. reflexivity.
Qed.

(** X11. The counter of a user never runs ahead of the user's stored
    submissions: the save comes before the increment. *)
Theorem counter_never_exceeds_stored_submissions w req s
    (Hbefore : forall (u : N) (n : nat),
       assessmentCount s !! u = Some n ->
       (n <= length (ofUser u (submissions s)))%nat) :
  forall (u : N) (n : nat),
    assessmentCount (snd (submit w req s)) !! u = Some n ->
    (n <= length (ofUser u (submissions (snd (submit w req s)))))%nat.
Proof.
  intros u n.
  assert (Hgrow : forall doc : Submission.t,
            (length (ofUser u (submissions s))
             <= length (ofUser u (submissions s ++ [doc])))%nat).
  { intros doc. unfold ofUser. rewrite filter_app, length_app. lia. }
  assert (Hown : forall doc : Submission.t,
            Submission.userId doc = reqUser req ->
            length (ofUser (reqUser req) (submissions s ++ [doc])) =
            S (length (ofUser (reqUser req) (submissions s)))).
  { intros doc Hdoc. unfold ofUser.
    rewrite filter_app, filter_cons_True, filter_nil, length_app by done.
    cbn. lia. }
  destruct (submit_store_step w req s)
    as [(_ & _ & ->) | (_ & p & lines & [(_ & -> & ->) | [(_ & _ & -> & ->)
                                        | (_ & _ & -> & ->)]] & _ & _)].
  - apply Hbefore.
  - apply Hbefore.
  - intros Hn. specialize (Hbefore u n Hn).
    specialize (Hgrow (remoteDocument w req p)). lia.
  - destruct (decide (u = reqUser req)) as [-> | Hne].
    + rewrite lookup_alter_eq.
      destruct (assessmentCount s !! reqUser req) as [m |] eqn:Em; [| discriminate].
      intros [= <-]. specialize (Hbefore _ _ Em).
      rewrite (Hown (remoteDocument w req p)) by reflexivity. lia.
    + rewrite lookup_alter_ne by done.
      intros Hn. specialize (Hbefore u n Hn).
      specialize (Hgrow (remoteDocument w req p)). lia.
Qed.

End SubmitMore.

Lemma counter_never_exceeds_stored_submissions_witness :
  (forall (u : N) (n : nat),
     assessmentCount twentyFiveServer !! u = Some n ->
     (n <= length (ofUser u (submissions twentyFiveServer)))%nat) /\
  forall n : nat,
    assessmentCount
      (snd (submit (worldWith Timeout) scenarioRequest twentyFiveServer)) !! 7%N
      = Some n ->
    (n <= length (ofUser 7
                    (submissions
                       (snd (submit (worldWith Timeout) scenarioRequest
                               twentyFiveServer)))))%nat.
Proof.
  assert (Hbefore : forall (u : N) (n : nat),
            assessmentCount twentyFiveServer !! u = Some n ->
            (n <= length (ofUser u (submissions twentyFiveServer)))%nat).
  { intros u n. cbn [twentyFiveServer assessmentCount].
    destruct (decide (u = 7%N)) as [-> | H7].
    - rewrite lookup_insert_eq. intros [= <-]. vm_compute. lia.
    - rewrite lookup_insert_ne by done.
      destruct (decide (u = 8%N)) as [-> | H8].
      + rewrite lookup_singleton_eq. intros [= <-]. vm_compute. lia.
      + rewrite lookup_singleton_ne by done. discriminate. }
  split; [exact Hbefore |].
  exact (counter_never_exceeds_stored_submissions
           (worldWith Timeout) scenarioRequest twentyFiveServer Hbefore 7%N).
Defined.

Lemma remote_answer_is_used_as_received_witness :
  validationResult (reqBody scenarioRequest) = [] /\
  validationResult (reqBody arrayRequest) = [] /\
  200 <= 200 < 300 /\
  fst (submit
         (worldWith (Answered 200 (assessmentData
                                     (mkAssessment "Low Risk" 0.85%Q [] 5))))
         scenarioRequest emptyServer)
    = SubmitOk (assessmentData (mkAssessment "Low Risk" 0.85%Q [] 5)) /\
  fst (submit (worldWith undatedAnswer) scenarioRequest emptyServer)
    = submissionServerError /\
  fst (submit
         (worldWith (Answered 200 (assessmentData
                                     (mkAssessment "Low Risk" 0.85%Q [] 5))))
         arrayRequest emptyServer)
    = submissionServerError.
Proof.
  assert (Hvalid : validationResult (reqBody scenarioRequest) = [])
    by (vm_compute; reflexivity).
  assert (Harray : validationResult (reqBody arrayRequest) = [])
    by (vm_compute; reflexivity).
  assert (Hstatus : 200 <= 200 < 300) by lia.
  split; [exact Hvalid |]. split; [exact Harray |]. split; [exact Hstatus |].
  pose proof (remote_answer_is_used_as_received
                (worldWith (Answered 200 (assessmentData
                                            (mkAssessment "Low Risk" 0.85%Q [] 5))))
                scenarioRequest emptyServer 200 _ Hvalid eq_refl Hstatus) as H.
  pose proof (remote_answer_is_used_as_received
                (worldWith undatedAnswer)
                scenarioRequest emptyServer 200 _ Hvalid eq_refl Hstatus) as H'.
  pose proof (remote_answer_is_used_as_received
                (worldWith (Answered 200 (assessmentData
                                            (mkAssessment "Low Risk" 0.85%Q [] 5))))
                arrayRequest emptyServer 200 _ Harray eq_refl Hstatus) as H''.
  cbv zeta in H, H', H''.
  split; [exact (proj1 H) |]. split; [exact (proj1 H') | exact (proj1 H'')].
Defined.
(** * Further properties of the history handler *)

Section HistoryMore.

Implicit Types (w : World) (req : HistoryRequest) (s : Server).

(** X12. The history handler only reads: whatever the query and the world, the
    submissions, the counters and the requests to the predictor are left
    as they were. *)
Theorem history_only_reads w req s :
  submissions (snd (history w req s)) = submissions s /\
  assessmentCount (snd (history w req s)) = assessmentCount s /\
  mlRequests (snd (history w req s)) = mlRequests s.
Proof.
  unfold history, historyBody, tryCatch, bind, ret, find, countDocuments,
    consoleError.
  cbv zeta.
  destruct (readAvailable w); cbn [negb]; [| by repeat split].
  destruct (_ <? 0); by repeat split.
Qed.

Lemma history_items_are_own w req s
    (data : list HistoryItem) (pagination : Pagination) (item : HistoryItem) :
  fst (history w req s) = HistoryOk data pagination ->
  item ∈ data ->
  itemUserId item = histUser req /\
  exists doc : Submission.t,
    doc ∈ submissions s /\ Submission.userId doc = histUser req /\
    item = selectPublic doc.
Proof.
  intros Hanswer Hin.
  assert (Hfrom : exists doc, doc ∈ sortedHistory (histUser req) s /\ item = selectPublic doc).
  { revert Hanswer.
    unfold history, historyBody, tryCatch, bind, ret, find, countDocuments,
      consoleError.
    cbv zeta.
    destruct (readAvailable w); cbn [negb]; [| discriminate].
    destruct (_ <? 0); [discriminate |].
    cbn [fst]. intros [= <- _].
    apply list_elem_of_fmap in Hin as (doc & -> & Hdoc).
    exists doc. split; [| reflexivity].
    destruct (_ =? 0).
    - by apply subseteq_drop in Hdoc.
    - by apply subseteq_take, subseteq_drop in Hdoc. }
  destruct Hfrom as (doc & Hdoc & ->).
  unfold sortedHistory in Hdoc. rewrite merge_sort_Permutation in Hdoc.
  apply list_elem_of_filter in Hdoc as [Huser Hstored].
  split; [exact Huser |]. by exists doc.
Qed.

(** X13. Whatever the page and the limit, every item of a history answer is a
    stored submission of the requesting user, without its provenance. *)
Theorem history_shows_only_own_submissions w req s
    (data : list HistoryItem) (pagination : Pagination)
    (Hanswer : fst (history w req s) = HistoryOk data pagination) :
  forall item : HistoryItem,
    item ∈ data ->
    itemUserId item = histUser req /\
    exists doc : Submission.t,
      doc ∈ submissions s /\ Submission.userId doc = histUser req /\
      item = selectPublic doc.
Proof. intros item Hin. by eapply history_items_are_own. Qed.


(** X15. Pages before the last are full and pages beyond the last are empty:
    page p of size n holds min(n, t - (p - 1) n) items, and none when that
    is negative. *)
Theorem history_page_sizes w (u : N) (p n : Z) s
    (Hread : readAvailable w = true) (Hp : 1 <= p) (Hn : 1 <= n) :
  let t := Z.of_nat (length (ofUser u (submissions s))) in
  exists data pagination,
    history w (pageRequest u p n) s = (HistoryOk data pagination, s) /\
    Z.of_nat (length data) = Z.max 0 (Z.min n (t - (p - 1) * n)) /\
    (if decide (p < pages pagination) then Z.of_nat (length data) = n
     else if decide (pages pagination < p) then data = []
     else 1 <= Z.of_nat (length data) <= n).
Proof.
  intros t.
  eexists; eexists. split; [by apply history_page_step |].
  assert (Hlen : Z.of_nat (length (selectPublic <$>
                   take (Z.to_nat n)
                     (drop (Z.to_nat ((p - 1) * n)) (sortedHistory u s)))) =
                 Z.max 0 (Z.min n (t - (p - 1) * n))).
  { rewrite length_fmap, length_take, length_drop.
    rewrite (Permutation_length (sortedHistory_Permutation u s)).
    subst t. nia. }
  split; [exact Hlen |].
  cbn [pages].
  pose proof (mathCeilDiv_spec t n ltac:(lia)) as [Hlow Hhigh].
  fold t. set (k := mathCeilDiv t n) in *.
  case_decide as Hlt.
  - rewrite Hlen. nia.
  - case_decide as Hgt.
    + apply length_zero_iff_nil, Nat2Z.inj. rewrite Hlen. nia.
    + assert (p = k) by lia. subst p. rewrite Hlen. nia.
Qed.

(** X16. Consecutive pages neither overlap nor leave a gap: pages 2q - 1 and 2q
    of size n, one after the other, are page q of size 2n. *)
Theorem history_two_pages_make_one w (u : N) (q n : Z) s
    (Hread : readAvailable w = true) (Hq : 1 <= q) (Hn : 1 <= n) :
  exists first second both pa pb pc,
    history w (pageRequest u (2 * q - 1) n) s = (HistoryOk first pa, s) /\
    history w (pageRequest u (2 * q) n) s = (HistoryOk second pb, s) /\
    history w (pageRequest u q (2 * n)) s = (HistoryOk both pc, s) /\
    first ++ second = both.
Proof.
  do 6 eexists.
  split; [apply history_page_step; [done | lia | lia] |].
  split; [apply history_page_step; [done | lia | lia] |].
  split; [apply history_page_step; [done | lia | lia] |].
  rewrite <- fmap_app. f_equal.
  replace (Z.to_nat ((2 * q - 1) * n))
    with (Z.to_nat ((2 * q - 1 - 1) * n) + Z.to_nat n)%nat by nia.
  rewrite <- drop_drop, take_take_drop.
  f_equal; [lia | f_equal; nia].
Qed.

(** The newest submission heads the sorted history. *)
Lemma sorted_head_is_newest (l sorted : list Submission.t) (new : Submission.t) :
  StronglySorted newerFirst sorted -> sorted ≡ₚ l ++ [new] ->
  Forall (fun doc => Submission.createdAt doc < Submission.createdAt new) l ->
  exists rest, sorted = new :: rest.
Proof.
  intros Hsorted Hperm Hold.
  destruct sorted as [| h rest].
  { apply Permutation_length in Hperm. rewrite length_app in Hperm. cbn in Hperm. lia. }
  exists rest. f_equal.
  assert (Hh : h ∈ l ++ [new]) by (rewrite <- Hperm; apply list_elem_of_here).
  apply elem_of_app in Hh as [Hh | Hh]; [| by apply list_elem_of_singleton in Hh].
  exfalso.
  rewrite Forall_forall in Hold. specialize (Hold h Hh).
  assert (Hnew : new ∈ h :: rest)
    by (rewrite Hperm; apply elem_of_app; right; apply list_elem_of_here).
  apply elem_of_cons in Hnew as [-> | Hnew]; [lia |].
  apply StronglySorted_inv in Hsorted as [_ Hall].
  rewrite Forall_forall in Hall. specialize (Hall new Hnew).
  unfold newerFirst in Hall. lia.
Qed.

(** X17. A submission that was answered with success is the first item of the
    requester's history from then on, as long as it is the newest: page 1
    begins with it, stripped of its provenance, and the total has grown by
    one. *)
Theorem submitted_assessment_heads_the_history
    (w w' : World) (req : SubmitRequest) s (data : Wire.t) (n : Z)
    (Hok : fst (submit w req s) = SubmitOk data)
    (Hnewest : Forall (fun doc => Submission.createdAt doc < clockAtSave w)
                      (ofUser (reqUser req) (submissions s)))
    (Hread : readAvailable w' = true) (Hn : 1 <= n) :
  let s' := snd (submit w req s) in
  exists rest pagination,
    history w' (pageRequest (reqUser req) 1 n) s' =
      (HistoryOk (selectPublic (remoteDocument w req data) :: rest) pagination, s') /\
    total pagination = Z.of_nat (length (ofUser (reqUser req) (submissions s))) + 1.
Proof.
  intros s'. subst s'.
  assert (Hstored : submissions (snd (submit w req s)) =
                    submissions s ++ [remoteDocument w req data]).
  { destruct (submit_store_step w req s)
      as [(Hr & _ & _) | (_ & p & lines & [(Hr & _) | [(Hr & _)
                                          | (Hr & _ & Hsub & _)]] & _ & _)];
      rewrite Hok in Hr; try discriminate.
    injection Hr as ->. exact Hsub. }
  assert (Hmine : ofUser (reqUser req) (submissions (snd (submit w req s))) =
                  ofUser (reqUser req) (submissions s) ++ [remoteDocument w req data]).
  { rewrite Hstored. unfold ofUser.
    by rewrite filter_app, filter_cons_True, filter_nil. }
  destruct (sorted_head_is_newest
              (ofUser (reqUser req) (submissions s))
              (sortedHistory (reqUser req) (snd (submit w req s)))
              (remoteDocument w req data)) as [rest Hhead].
  { apply sortedHistory_sorted. }
  { rewrite <- Hmine. apply sortedHistory_Permutation. }
  { exact Hnewest. }
  rewrite (history_page_step w' (reqUser req) 1 n _ Hread) by lia.
  rewrite Hhead, Hmine, length_app.
  change (Z.to_nat ((1 - 1) * n)) with 0%nat. rewrite drop_0.
  destruct (Z.to_nat n) as [| m] eqn:Em; [lia |].
  cbn [take fmap list_fmap].
  eexists; eexists. split; [reflexivity |]. cbn. lia.
Qed.

End HistoryMore.

Lemma history_shows_only_own_submissions_witness :
  (exists data pagination,
     fst (history (worldWith Timeout) (pageRequest 7 3 10) twentyFiveServer)
       = HistoryOk data pagination) /\
  forall item : HistoryItem,
    item ∈ selectPublic <$> (stored 7 <$> [5; 4; 3; 2; 1]) ->
    itemUserId item = 7%N.
Proof.
  assert (Hanswer :
    fst (history (worldWith Timeout) (pageRequest 7 3 10) twentyFiveServer) =
    HistoryOk (selectPublic <$> (stored 7 <$> [5; 4; 3; 2; 1]))
      {| page := 3; limit := 10; total := 25; pages := 3 |})
    by (vm_compute; reflexivity).
  split; [by eexists; eexists |].
  intros item Hin.
  exact (proj1 (history_shows_only_own_submissions
                  (worldWith Timeout) (pageRequest 7 3 10) twentyFiveServer
                  _ _ Hanswer item Hin)).
Defined.


Lemma history_page_sizes_witness :
  (readAvailable (worldWith Timeout) = true /\ 1 <= 3 /\ 1 <= 10) /\
  exists data pagination,
    history (worldWith Timeout) (pageRequest 7 3 10) twentyFiveServer =
      (HistoryOk data pagination, twentyFiveServer) /\
    Z.of_nat (length data) =
      Z.max 0 (Z.min 10
                 (Z.of_nat (length (ofUser 7 (submissions twentyFiveServer)))
                  - (3 - 1) * 10)).
Proof.
  assert (Hread : readAvailable (worldWith Timeout) = true) by reflexivity.
  assert (Hp : 1 <= 3) by lia.
  assert (Hn : 1 <= 10) by lia.
  split; [by repeat split |].
  pose proof (history_page_sizes (worldWith Timeout) 7 3 10 twentyFiveServer
                Hread Hp Hn) as H.
  cbv zeta in H. destruct H as (data & pagination & Hresp & Hlen & _).
  exists data, pagination. split; [exact Hresp | exact Hlen].
Defined.

Lemma history_two_pages_make_one_witness :
  (readAvailable (worldWith Timeout) = true /\ 1 <= 1 /\ 1 <= 10) /\
  exists first second both pa pb pc,
    history (worldWith Timeout) (pageRequest 7 (2 * 1 - 1) 10) twentyFiveServer
      = (HistoryOk first pa, twentyFiveServer) /\
    history (worldWith Timeout) (pageRequest 7 (2 * 1) 10) twentyFiveServer
      = (HistoryOk second pb, twentyFiveServer) /\
    history (worldWith Timeout) (pageRequest 7 1 (2 * 10)) twentyFiveServer
      = (HistoryOk both pc, twentyFiveServer) /\
    first ++ second = both.
Proof.
  assert (Hread : readAvailable (worldWith Timeout) = true) by reflexivity.
  assert (Hq : 1 <= 1) by lia.
  assert (Hn : 1 <= 10) by lia.
  split; [by repeat split |].
  exact (history_two_pages_make_one (worldWith Timeout) 7 1 10 twentyFiveServer
           Hread Hq Hn).
Defined.

Lemma submitted_assessment_heads_the_history_witness :
  fst (submit (worldWith Timeout) scenarioRequest twentyFiveServer) =
    SubmitOk (fallbackData (worldWith Timeout) scenarioRequest) /\
  (readAvailable (worldWith Timeout) = true /\ 1 <= 10) /\
  exists rest pagination,
    history (worldWith Timeout) (pageRequest (reqUser scenarioRequest) 1 10)
      (snd (submit (worldWith Timeout) scenarioRequest twentyFiveServer)) =
      (HistoryOk
         (selectPublic
            (remoteDocument (worldWith Timeout) scenarioRequest
               (fallbackData (worldWith Timeout) scenarioRequest)) :: rest)
         pagination,
       snd (submit (worldWith Timeout) scenarioRequest twentyFiveServer)) /\
    total pagination = 26.
Proof.
  assert (Hok : fst (submit (worldWith Timeout) scenarioRequest twentyFiveServer) =
                SubmitOk (fallbackData (worldWith Timeout) scenarioRequest))
    by (vm_compute; reflexivity).
  assert (Hnewest :
    Forall (fun doc => Submission.createdAt doc < clockAtSave (worldWith Timeout))
           (ofUser (reqUser scenarioRequest) (submissions twentyFiveServer))).
  { apply Forall_forall. intros doc Hin.
    apply list_elem_of_filter in Hin as [_ Hin].
    cbn [twentyFiveServer submissions] in Hin.
    apply elem_of_cons in Hin as [-> | Hin]; [cbn; lia |].
    apply elem_of_app in Hin as [Hin | Hin].
    - apply list_elem_of_fmap in Hin as (t & -> & Ht).
      apply elem_of_seqZ in Ht. cbn. lia.
    - apply list_elem_of_singleton in Hin as ->. cbn. lia. }
  assert (Hread : readAvailable (worldWith Timeout) = true) by reflexivity.
  assert (Hn : 1 <= 10) by lia.
  split; [exact Hok |]. split; [by split |].
  pose proof (submitted_assessment_heads_the_history
                (worldWith Timeout) (worldWith Timeout) scenarioRequest
                twentyFiveServer _ 10 Hok Hnewest Hread Hn) as H.
  cbv zeta in H. destruct H as (rest & pagination & Hresp & Htotal).
  exists rest, pagination. split; [exact Hresp |].
  rewrite Htotal. vm_compute. reflexivity.
Defined.

(** * Properties of the authentication middleware and of the routes *)

Section Authentication.

Implicit Types (aw : AuthWorld) (w : World) (s : Server).

Lemma replaceFirst_absent (pattern replacement s : string) :
  occursIn pattern s = false -> replaceFirst pattern replacement s = s.
Proof.
  induction s as [| c rest IH]; cbn [occursIn replaceFirst]; intros H;
    apply orb_false_iff in H as [Hprefix Hrest]; rewrite Hprefix.
  - reflexivity.
  - by rewrite IH.
Qed.

Lemma replaceFirst_unfold (pattern replacement s : string) :
  replaceFirst pattern replacement s =
    if String.prefix pattern s
    then (replacement ++ dropChars (String.length pattern) s)%string
    else match s with
         | EmptyString => EmptyString
         | String c rest => String c (replaceFirst pattern replacement rest)
         end.
Proof. by destruct s. Qed.

Lemma prefix_append (pattern s : string) :
  String.prefix pattern (pattern ++ s)%string = true.
Proof.
  induction pattern as [| c pattern IH]; [by destruct s |].
  change (String c pattern ++ s)%string with (String c (pattern ++ s)%string).
  cbn [String.prefix]. by destruct (Ascii.ascii_dec c c).
Qed.

Lemma dropChars_append (pattern s : string) :
  dropChars (String.length pattern) (pattern ++ s)%string = s.
Proof. induction pattern as [| c pattern IH]; [reflexivity | exact IH]. Qed.

(** An occurrence at the very start is the first one. *)
Lemma replaceFirst_at_start (pattern replacement s : string) :
  replaceFirst pattern replacement (pattern ++ s)%string = (replacement ++ s)%string.
Proof. by rewrite replaceFirst_unfold, prefix_append, dropChars_append. Qed.

Lemma tokenOf_bearer (token : string) :
  tokenOf (Some ("Bearer " ++ token)%string) = Some token.
Proof.
  unfold tokenOf. cbn [fmap option_fmap option_map].
  by rewrite replaceFirst_at_start.
Qed.

Lemma authMiddleware_next_active aw (authorization : option string) (user : User) :
  authMiddleware aw authorization = Next user -> isActive user = true.
Proof.
  unfold authMiddleware, verifyAndLoad.
  destruct (tokenOf authorization) as [token |]; [| discriminate].
  destruct (String.eqb token ""); [discriminate |].
  destruct (jwtVerify aw token) as [userId | | |]; try discriminate.
  destruct (findById aw userId) as [u | |]; try discriminate.
  destruct (isActive u) eqn:Eactive; cbn [negb]; [| discriminate].
  by intros [= <-].
Qed.

(** X18. The middleware lets a request through exactly when the header is
    present, the header without its first "Bearer " is not empty and
    verifies, and the user it names is found and active; that user becomes
    [req.user].  Every other request is answered 401 or 500. *)
Theorem authentication_gate aw (authorization : option string) :
  (forall user : User,
     authMiddleware aw authorization = Next user <->
     exists (header : string) (userId : N),
       authorization = Some header /\
       replaceFirst "Bearer " "" header <> "" /\
       jwtVerify aw (replaceFirst "Bearer " "" header) = Verified userId /\
       findById aw userId = Found user /\
       isActive user = true) /\
  (forall (status : Z) (message : string),
     authMiddleware aw authorization = Deny status message ->
     status = 401 \/ status = 500).
Proof.
  unfold authMiddleware, tokenOf, verifyAndLoad. split.
  - intros user. split.
    + destruct authorization as [header |]; cbn [fmap option_fmap option_map];
        [| discriminate].
      destruct (String.eqb_spec (replaceFirst "Bearer " "" header) "") as [| Hne];
        [discriminate |].
      destruct (jwtVerify aw _) as [userId | | |] eqn:Everify; try discriminate.
      destruct (findById aw userId) as [u | |] eqn:Efind; try discriminate.
      destruct (isActive u) eqn:Eactive; cbn [negb]; [| discriminate].
      intros [= <-]. by exists header, userId.
    + intros (header & userId & -> & Hne & Everify & Efind & Eactive).
      cbn [fmap option_fmap option_map].
      destruct (String.eqb_spec (replaceFirst "Bearer " "" header) ""); [done |].
      by rewrite Everify, Efind, Eactive.
  - intros status message.
    destruct authorization as [header |]; cbn [fmap option_fmap option_map];
      [| intros [= <- _]; by left].
    destruct (String.eqb _ _); [intros [= <- _]; by left |].
    destruct (jwtVerify aw _) as [userId | | |];
      [| intros [= <- _]; by left | intros [= <- _]; by left
       | intros [= <- _]; by right].
    destruct (findById aw userId) as [u | |];
      [| intros [= <- _]; by left | intros [= <- _]; by right].
    destruct (isActive u); cbn [negb]; [discriminate | intros [= <- _]; by left].
Qed.

(** X19. The "Bearer " scheme is not required: a header that holds the bare
    token, without "Bearer " anywhere in it, is treated like the same token
    behind "Bearer ". *)
Theorem bearer_prefix_is_optional aw (token : string)
    (Hbare : occursIn "Bearer " token = false) :
  authMiddleware aw (Some token) =
  authMiddleware aw (Some ("Bearer " ++ token)%string).
Proof.
  unfold authMiddleware. rewrite tokenOf_bearer.
  unfold tokenOf. cbn [fmap option_fmap option_map].
  by rewrite replaceFirst_absent.
Qed.

(** X20. Both routes act for the authenticated user only: what a submit request
    stores is stored under the id of the active user the middleware loaded,
    a history answer holds only that user's submissions, and a request the
    middleware denies leaves the server as it was. *)
Theorem routes_act_for_the_authenticated_user aw w (authorization : option string)
    (body : gmap string BodyValue) (ip userAgent : string)
    (qp ql : option Z) s :
  match authMiddleware aw authorization with
  | Next user =>
    isActive user = true /\
    (exists appended,
       submissions (snd (postSubmit aw w authorization body ip userAgent s)) =
         submissions s ++ appended /\
       Forall (fun doc => Submission.userId doc = _id user) appended) /\
    (forall data pagination,
       fst (getHistory aw w authorization qp ql s) =
         Handled (HistoryOk data pagination) ->
       Forall (fun item => itemUserId item = _id user) data)
  | Deny status message =>
    postSubmit aw w authorization body ip userAgent s = (Denied status message, s) /\
    getHistory aw w authorization qp ql s = (Denied status message, s)
  end.
Proof.
  destruct (authMiddleware aw authorization) as [user | status message] eqn:Eauth.
  - split.
    { by eapply authMiddleware_next_active. }
    split.
    + unfold postSubmit. rewrite Eauth.
      set (req := {| reqUser := _id user; reqBody := body;
                     reqIp := ip; reqUserAgent := userAgent |}).
      destruct (submit_appends_for_requester w req s)
        as (appended & Happ & _ & _ & Hall).
      destruct (submit w req s) as [response s'] eqn:Esubmit.
      cbn [fst snd] in *. exists appended. split; [exact Happ |].
      eapply Forall_impl; [exact Hall |]. by intros doc (? & _).
    + intros data pagination. unfold getHistory. rewrite Eauth.
      set (req := {| histUser := _id user; queryPage := qp; queryLimit := ql |}).
      pose proof (fun item => history_items_are_own w req s data pagination item)
        as Hown.
      destruct (history w req s) as [response s'] eqn:Ehistory.
      cbn [fst] in *. intros [= ->]. apply Forall_forall. intros item Hin.
      by apply Hown.
  - unfold postSubmit, getHistory. by rewrite Eauth.
Qed.

End Authentication.

Lemma bearer_prefix_is_optional_witness :
  occursIn "Bearer " "good" = false /\
  authMiddleware authWorld (Some "good") = Next activeUser /\
  authMiddleware authWorld (Some "Bearer good") = Next activeUser.
Proof.
  assert (Hbare : occursIn "Bearer " "good" = false) by reflexivity.
  split; [exact Hbare |].
  pose proof (bearer_prefix_is_optional authWorld "good" Hbare) as H.
  split; [reflexivity |].
  change (Some "Bearer good") with (Some ("Bearer " ++ "good")%string).
  rewrite <- H. reflexivity.
Defined.

(** * Properties of the client and of the form *)

Section Client.

Implicit Types (aw : AuthWorld) (localStorage : gmap string string).

(** X21. The token the client stored reaches [jwt.verify] unchanged, and a
    client without a token, or with an empty one, is answered 401 without
    any verification. *)
Theorem stored_token_reaches_the_verifier aw localStorage :
  authMiddleware aw (requestInterceptor localStorage) =
    match localStorage !! "mindguard_token" with
    | Some token =>
      if String.eqb token "" then Deny 401 "Access denied. No token provided."
      else verifyAndLoad aw token
    | None => Deny 401 "Access denied. No token provided."
    end.
Proof.
  unfold requestInterceptor.
  destruct (localStorage !! "mindguard_token") as [token |]; [| reflexivity].
  destruct (String.eqb token "") eqn:Eempty; [reflexivity |].
  unfold authMiddleware. rewrite tokenOf_bearer. by rewrite Eempty.
Qed.

(** X22. The client ends its session exactly on a 401: after the answer of the
    submit route the stored token and user are gone when the middleware
    answered 401, so that the next request carries no header, and
    [localStorage] is untouched in every other case, since the handler
    itself never answers 401. *)
Theorem session_ends_exactly_on_401 aw (w : World) localStorage
    (body : gmap string BodyValue) (ip userAgent : string) (s : Server) :
  let response :=
    fst (postSubmit aw w (requestInterceptor localStorage) body ip userAgent s) in
  (routeStatus response = 401 <->
   exists message,
     authMiddleware aw (requestInterceptor localStorage) = Deny 401 message) /\
  storageAfter response localStorage =
    (if routeStatus response =? 401
     then delete "mindguard_user" (delete "mindguard_token" localStorage)
     else localStorage) /\
  (if routeStatus response =? 401
   then requestInterceptor (storageAfter response localStorage) = None /\
        storageAfter response localStorage !! "mindguard_user" = None
   else storageAfter response localStorage = localStorage).
Proof.
  intros response.
  assert (Hstorage : forall r : RouteResponse,
            storageAfter r localStorage =
            if routeStatus r =? 401
            then delete "mindguard_user" (delete "mindguard_token" localStorage)
            else localStorage).
  { intros r. unfold storageAfter, errorStatus, responseErrorInterceptor.
    destruct (Z.eqb_spec (routeStatus r) 401) as [-> | Hne]; [reflexivity |].
    destruct ((200 <=? routeStatus r) && (routeStatus r <? 300)); [reflexivity |].
    destruct (routeStatus r) as [| [p | p |] |]; try reflexivity;
      repeat (destruct p as [p | p |]; try reflexivity); lia. }
  split; [| split; [apply Hstorage |]].
  - subst response. unfold postSubmit.
    destruct (authMiddleware aw (requestInterceptor localStorage))
      as [user | status message] eqn:Eauth.
    + destruct (submit w _ s) as [r s']. cbn [fst routeStatus].
      split; [| by intros (? & ?)].
      destruct r; cbn [statusCode]; lia.
    + cbn [fst routeStatus]. split.
      * intros ->. by exists message.
      * by intros (? & [= -> _]).
  - rewrite Hstorage. destruct (routeStatus response =? 401); [| reflexivity].
    split.
    + unfold requestInterceptor.
      by rewrite lookup_delete_ne, lookup_delete_eq.
    + apply lookup_delete_eq.
Qed.

Lemma setField_valid (d : MentalHealthForm) (q : Question) (v : Z) :
  validForm d -> sliderMove q v -> validForm (setField (qKey q) v d).
Proof.
  intros (Hsl & Han & Hst & Hfi & Hso & Hwo & Hph & Hsu & Hmo & Hsc) [Hq Hv].
  destruct d as [sl an st fi so wo ph su mo sc].
  unfold questions in Hq.
  repeat (apply elem_of_cons in Hq as [-> | Hq];
          [cbn in *; unfold validForm; cbn; lia |]).
  by apply elem_of_nil in Hq.
Qed.

(** X23. Whatever sliders are moved, and however often, the form holds a valid
    questionnaire, which the validator of the server accepts: the ranges of
    the sliders are the ranges of the validation rules. *)
Theorem slider_forms_are_always_accepted (moves : list (Question * Z))
    (Hmoves : Forall (fun m => sliderMove (fst m) (snd m)) moves) :
  validForm (formAfter moves) /\
  validationResult (ofForm (formAfter moves)) = [].
Proof.
  assert (Hvalid : validForm (formAfter moves)).
  { unfold formAfter.
    assert (Hinit : validForm initialFormData) by (unfold validForm; cbn; lia).
    revert Hinit. generalize initialFormData.
    induction Hmoves as [| [q v] moves Hm _ IH]; intros d Hd; [exact Hd |].
    cbn [foldl]. apply IH. by apply setField_valid. }
  split; [exact Hvalid |].
  by apply ofForm_accepted.
Qed.

End Client.

Lemma slider_forms_are_always_accepted_witness :
  Forall (fun m => sliderMove (fst m) (snd m))
    [ (mkQuestion FSleepHours "How many hours do you sleep per night on average?"
         0 12 "hours" "Very little" "Plenty", 5) ] /\
  validationResult
    (ofForm (formAfter
       [ (mkQuestion FSleepHours "How many hours do you sleep per night on average?"
            0 12 "hours" "Very little" "Plenty", 5) ])) = [].
Proof.
  assert (Hmoves :
    Forall (fun m => sliderMove (fst m) (snd m))
      [ (mkQuestion FSleepHours "How many hours do you sleep per night on average?"
           0 12 "hours" "Very little" "Plenty", 5) ]).
  { constructor; [| constructor].
    split; [apply elem_of_cons; by left | cbn; lia]. }
  split; [exact Hmoves |].
  exact (proj2 (slider_forms_are_always_accepted _ Hmoves)).
Defined.

